(** * Daily cost reporter: the report pipeline of [src/funcs/cost-report.lambda.ts]

    A shallow embedding of the Lambda handler and of the functions it calls
    ([dateFormatString], [getDateRange], [getTotalBilling],
    [getServiceBilling], [getAccountBillings], [handler]), followed by the
    properties of the reporting period, of the paginated billing fetches, of
    the account join and of the handler's step sequence.

    Conventions of the embedding:
    - a JavaScript value that is either [undefined] or a string is an
      [option string]; a template literal renders [undefined] as the text
      "undefined" ([tpl]);
    - a promise is the reply it settles to ([Resolved] or [Rejected]);
    - an exception thrown inside a callback is a [Throw] completion, which
      [.catch] turns into a normal one;
    - the recursion over continuation tokens carries a fuel argument;
    - [context.step] of the durable context runs a step that throws again
      ([context_step]); how many times, and the error it throws in the end,
      are read from the world, which answers a request the same way every
      time it is asked. *)

From Stdlib Require Import ZArith Bool List Lia.
From Stdlib Require Import Strings.String Strings.Ascii Numbers.DecimalString.
Import ListNotations.

Open Scope string_scope.
Open Scope Z_scope.

(** ** JavaScript strings and numbers *)

(** [String(n)] for an integral number [n]. *)
Definition number_to_string (n : Z) : string :=
  NilZero.string_of_int (Z.to_int n).

(** [s.slice(-n)]: the last [n] characters of [s], all of [s] when it is
    shorter. *)
Definition slice_last (n : nat) (s : string) : string :=
  substring (String.length s - n) n s.

(** A value interpolated in a template literal. *)
Definition tpl (v : option string) : string :=
  match v with
  | Some s => s
  | None => "undefined"
  end.

(** Truthiness of a string-or-undefined value: [undefined] and the empty
    string are falsy. *)
Definition truthy (v : option string) : bool :=
  match v with
  | Some s => negb (s =? "")%string
  | None => false
  end.

(** A value that a truthiness check has narrowed to a string. *)
Definition as_string (v : option string) : string :=
  match v with
  | Some s => s
  | None => ""
  end.

(** [v?.f]: the property [f] of [v], [undefined] when [v] is. *)
Definition optional_chain {A B : Type} (v : option A) (f : A -> option B)
  : option B :=
  match v with
  | Some a => f a
  | None => None
  end.

(** ** The [Date] built-in (ECMA-262, Date objects)

    [getFullYear], [getMonth] and [getDate] read the local day number of a
    date only, and [new Date(y, m, d)] builds local midnight of a day, so a
    date is represented by its local day number, counted from 1970-01-01.
    The function runs with the runtime's fixed local time zone; the clipping
    of time values beyond 100,000,000 days from the epoch is not modelled. *)
Module JsDate.

Record t : Set := ofDay { localDay : Z }.

Definition DaysInYear (y : Z) : Z :=
  if negb (y mod 4 =? 0) then 365
  else if negb (y mod 100 =? 0) then 366
  else if negb (y mod 400 =? 0) then 365
  else 366.

Definition DayFromYear (y : Z) : Z :=
  365 * (y - 1970) + (y - 1969) / 4 - (y - 1901) / 100 + (y - 1601) / 400.

(** The largest [y] with [DayFromYear y <= d]: the quotient by the mean
    length of a year is off by one at most, and is adjusted. *)
Definition YearFromDay (d : Z) : Z :=
  let e := 1970 + (400 * d) / 146097 in
  if d <? DayFromYear e then e - 1
  else if DayFromYear (e + 1) <=? d then e + 1
  else e.

Definition InLeapYear (d : Z) : Z :=
  if DaysInYear (YearFromDay d) =? 366 then 1 else 0.

Definition DayWithinYear (d : Z) : Z := d - DayFromYear (YearFromDay d).

Definition MonthFromDay (d : Z) : Z :=
  let w := DayWithinYear d in
  let l := InLeapYear d in
  if w <? 31 then 0
  else if w <? 59 + l then 1
  else if w <? 90 + l then 2
  else if w <? 120 + l then 3
  else if w <? 151 + l then 4
  else if w <? 181 + l then 5
  else if w <? 212 + l then 6
  else if w <? 243 + l then 7
  else if w <? 273 + l then 8
  else if w <? 304 + l then 9
  else if w <? 334 + l then 10
  else 11.

Definition DateFromDay (d : Z) : Z :=
  let w := DayWithinYear d in
  let l := InLeapYear d in
  match MonthFromDay d with
  | 0 => w + 1
  | 1 => w - 30
  | 2 => w - 58 - l
  | 3 => w - 89 - l
  | 4 => w - 119 - l
  | 5 => w - 150 - l
  | 6 => w - 180 - l
  | 7 => w - 211 - l
  | 8 => w - 242 - l
  | 9 => w - 272 - l
  | 10 => w - 303 - l
  | _ => w - 333 - l
  end.

(** Day number of the first day of month [mn] (0 to 11) of year [ym]. *)
Definition DayFromMonth (ym mn : Z) : Z :=
  let l := if DaysInYear ym =? 366 then 1 else 0 in
  DayFromYear ym +
  match mn with
  | 0 => 0
  | 1 => 31
  | 2 => 59 + l
  | 3 => 90 + l
  | 4 => 120 + l
  | 5 => 151 + l
  | 6 => 181 + l
  | 7 => 212 + l
  | 8 => 243 + l
  | 9 => 273 + l
  | 10 => 304 + l
  | _ => 334 + l
  end.

(** [MakeDay(year, month, date)]: months and days outside their range
    carry into the neighbouring years and months. *)
Definition MakeDay (year month date : Z) : Z :=
  let ym := year + month / 12 in
  let mn := month mod 12 in
  DayFromMonth ym mn + date - 1.

(** [new Date(year, month, date)]; a year from 0 to 99 means 1900 + year. *)
Definition make (year month date : Z) : t :=
  let yr := if (0 <=? year) && (year <=? 99) then 1900 + year else year in
  ofDay (MakeDay yr month date).

Definition getFullYear (d : t) : Z := YearFromDay (localDay d).
Definition getMonth (d : t) : Z := MonthFromDay (localDay d).
Definition getDate (d : t) : Z := DateFromDay (localDay d).

End JsDate.

(** ** Reporting period *)

Record DateRange : Set := mkDateRange { start : string; end_ : string }.

Definition dateFormatString (date : JsDate.t) : string :=
  number_to_string (JsDate.getFullYear date) ++ "-" ++
  slice_last 2 ("00" ++ number_to_string (JsDate.getMonth date + 1)) ++ "-" ++
  slice_last 2 ("00" ++ number_to_string (JsDate.getDate date)).

(** [getDateRange]; [now] is [new Date(Date.now())]. *)
Definition getDateRange (now : JsDate.t) : DateRange :=
  if JsDate.getDate now =? 1 then
    {| start := dateFormatString
                  (JsDate.make (JsDate.getFullYear now) (JsDate.getMonth now - 1) 1);
       end_ := dateFormatString
                  (JsDate.make (JsDate.getFullYear now) (JsDate.getMonth now) 0) |}
  else
    {| start := dateFormatString
                  (JsDate.make (JsDate.getFullYear now) (JsDate.getMonth now) 1);
       end_ := dateFormatString
                  (JsDate.make (JsDate.getFullYear now) (JsDate.getMonth now)
                     (JsDate.getDate now - 1)) |}.

(** ** Promises and exceptions *)

(** What an awaited promise settles to. *)
Inductive Reply (A : Type) : Type :=
| Resolved (a : A)
| Rejected (reason : string).
Arguments Resolved {A} a.
Arguments Rejected {A} reason.

(** Completion of a block of statements: a value, or a thrown error with
    its message. *)
Inductive Completion (A : Type) : Type :=
| Normal (a : A)
| Throw (message : string).
Arguments Normal {A} a.
Arguments Throw {A} message.

Definition bind {A B : Type} (c : Completion A) (k : A -> Completion B)
  : Completion B :=
  match c with
  | Normal a => k a
  | Throw e => Throw e
  end.

Notation "x <- c ;; k" := (bind c (fun x => k))
  (at level 61, c at next level, right associativity).

(** Reading a property of [v]: a [TypeError] when [v] is [undefined]. *)
Definition deref {A : Type} (v : option A) : Completion A :=
  match v with
  | Some a => Normal a
  | None => Throw "TypeError: Cannot read properties of undefined"
  end.

(** [for (const x of xs) body], the loop state threaded through [body]. *)
Fixpoint for_of {A S : Type} (xs : list A) (body : S -> A -> Completion S)
  (s : S) : Completion S :=
  match xs with
  | [] => Normal s
  | x :: xs' => s' <- body s x ;; for_of xs' body s'
  end.

(** A computation under fuel: out of it, or returned. *)
Inductive Run (A : Type) : Type :=
| OutOfFuel
| Ret (a : A).
Arguments OutOfFuel {A}.
Arguments Ret {A} a.

(** [===] on two string-or-undefined values. *)
Definition strict_eq (a b : option string) : bool :=
  match a, b with
  | Some x, Some y => (x =? y)%string
  | None, None => true
  | _, _ => false
  end.

(** ** Cost Explorer: the request and the response of GetCostAndUsage

    Every property of the response is optional, as the SDK declares it. The
    records [Total], [Metrics] and [Attributes] are read at one key only
    ([AmortizedCost], [description]) and are represented by that entry. *)

Record GroupDefinition : Set := { Type_ : string; Key : string }.

Record GetCostAndUsageCommandInput : Set := {
  in_NextPageToken : option string;
  TimePeriod : DateRange;
  Granularity : string;
  in_Metrics : list string;
  GroupBy : option (list GroupDefinition)
}.

Record MetricValue : Set := { Amount : option string; Unit : option string }.

Record MetricMap : Set := { AmortizedCost : option MetricValue }.

Record Group : Set := {
  Keys : option (list string);
  Metrics : option MetricMap
}.

Record ResultByTime : Set := {
  Total : option MetricMap;
  Groups : option (list Group)
}.

Record AttributeMap : Set := { description : option string }.

Record DimensionValuesWithAttributes : Set := {
  Value : option string;
  Attributes : option AttributeMap
}.

Record GetCostAndUsageCommandOutput : Set := {
  ResultsByTime : option (list ResultByTime);
  NextPageToken : option string;
  DimensionValueAttributes : option (list DimensionValuesWithAttributes)
}.

(** [client.send(new GetCostAndUsageCommand(input))]. *)
Definition CostExplorerClient : Type :=
  GetCostAndUsageCommandInput -> Reply GetCostAndUsageCommandOutput.

(** ** Billing rows

    The amounts are declared [number] in the source and hold at run time
    what the response holds: a string, or [undefined]. *)

Record TotalBilling : Set := {
  tb_unit : option string;
  tb_amount : option string
}.

Record ServiceBilling : Set := {
  service : option string;
  sb_unit : option string;
  sb_amount : option string
}.

Record AccountBilling : Set := {
  account : string;
  ab_amount : option string;
  ab_unit : option string
}.

(** ** The billing fetches

    The test [data.ResultsByTime?.length === 1] is the match of
    [ResultsByTime data] against a list of one bucket, [r0]. A callback
    that throws is caught by [.catch], which returns [undefined]. *)

(** The [input] of each fetch. *)
Definition totalInput (dateRange : DateRange) : GetCostAndUsageCommandInput :=
  {| in_NextPageToken := None;
     TimePeriod := dateRange;
     Granularity := "MONTHLY";
     in_Metrics := ["AMORTIZED_COST"];
     GroupBy := None |}.

Definition serviceInput (dateRange : DateRange) (nextPageToken : option string)
  : GetCostAndUsageCommandInput :=
  {| in_NextPageToken := nextPageToken;
     TimePeriod := dateRange;
     Granularity := "MONTHLY";
     in_Metrics := ["AMORTIZED_COST"];
     GroupBy := Some [{| Type_ := "DIMENSION"; Key := "SERVICE" |}] |}.

Definition accountInput (dateRange : DateRange) (nextPageToken : option string)
  : GetCostAndUsageCommandInput :=
  {| in_NextPageToken := nextPageToken;
     TimePeriod := dateRange;
     Granularity := "MONTHLY";
     in_Metrics := ["AMORTIZED_COST"];
     GroupBy := Some [{| Type_ := "DIMENSION"; Key := "LINKED_ACCOUNT" |}] |}.

Definition getTotalBilling (client : CostExplorerClient) (dateRange : DateRange)
  : option TotalBilling :=
  let input := totalInput dateRange in
  match client input with
  | Resolved data =>
      let body :=
        match ResultsByTime data with
        | Some [r0] =>
            total <- deref (Total r0) ;;
            cost <- deref (AmortizedCost total) ;;
            Normal (Some {| tb_unit := Unit cost; tb_amount := Amount cost |})
        | _ => Normal None
        end in
      match body with
      | Normal result => result
      | Throw _ => None
      end
  | Rejected _ => None
  end.

(** The body of the loop over the groups of a SERVICE page. *)
Definition push_service (billings : list ServiceBilling) (item : Group)
  : Completion (list ServiceBilling) :=
  keys <- deref (Keys item) ;;
  metrics <- deref (Metrics item) ;;
  cost <- deref (AmortizedCost metrics) ;;
  Normal (billings ++ [{| service := hd_error keys;
                          sb_unit := Unit cost;
                          sb_amount := Amount cost |}])%list.

(** The rows that the callback of [getServiceBilling] shapes from the result
    bucket [r0] of a page. *)
Definition serviceBillingsOfPage (r0 : ResultByTime)
  : Completion (list ServiceBilling) :=
  groups <- deref (Groups r0) ;;
  for_of groups push_service [].

Fixpoint getServiceBilling (fuel : nat) (client : CostExplorerClient)
  (dateRange : DateRange) (nextPageToken : option string)
  : Run (option (list ServiceBilling)) :=
  match fuel with
  | O => OutOfFuel
  | S fuel' =>
      let input := serviceInput dateRange nextPageToken in
      match client input with
      | Resolved data =>
          match ResultsByTime data with
          | Some [r0] =>
              match serviceBillingsOfPage r0 with
              | Normal billings =>
                  if truthy (NextPageToken data) then
                    match getServiceBilling fuel' client dateRange
                            (NextPageToken data) with
                    | OutOfFuel => OutOfFuel
                    | Ret (Some nextBillings) =>
                        Ret (Some (billings ++ nextBillings)%list)
                    | Ret None => Ret (Some billings)
                    end
                  else Ret (Some billings)
              | Throw _ => Ret None
              end
          | _ => Ret None
          end
      | Rejected _ => Ret None
      end
  end.

(** [attr.Attributes?.description ?? ''] *)
Definition description_or_empty (attr : DimensionValuesWithAttributes) : string :=
  match Attributes attr with
  | Some a =>
      match description a with
      | Some d => d
      | None => ""
      end
  | None => ""
  end.

(** The body of the inner loop of an account page, over the attributes. *)
Definition push_account (item : Group) (billings : list AccountBilling)
  (attr : DimensionValuesWithAttributes) : Completion (list AccountBilling) :=
  keys <- deref (Keys item) ;;
  if strict_eq (hd_error keys) (Value attr) then
    let label := tpl (Value attr) ++ " (" ++ description_or_empty attr ++ ")" in
    metrics <- deref (Metrics item) ;;
    cost <- deref (AmortizedCost metrics) ;;
    Normal (billings ++ [{| account := label;
                            ab_unit := Unit cost;
                            ab_amount := Amount cost |}])%list
  else Normal billings.

(** The rows that the callback of [getAccountBillings] shapes from a page
    [data] and its result bucket [r0]: the nested loops over the groups and
    over the attribute entries. *)
Definition accountBillingsOfPage (data : GetCostAndUsageCommandOutput)
  (r0 : ResultByTime) : Completion (list AccountBilling) :=
  groups <- deref (Groups r0) ;;
  let dimensionValueAttributes :=
    match DimensionValueAttributes data with
    | Some attrs => attrs
    | None => []
    end in
  for_of groups
    (fun billings item => for_of dimensionValueAttributes (push_account item) billings)
    [].

Fixpoint getAccountBillings (fuel : nat) (client : CostExplorerClient)
  (dateRange : DateRange) (nextPageToken : option string)
  : Run (option (list AccountBilling)) :=
  match fuel with
  | O => OutOfFuel
  | S fuel' =>
      let input := accountInput dateRange nextPageToken in
      match client input with
      | Resolved data =>
          match ResultsByTime data with
          | Some [r0] =>
              match accountBillingsOfPage data r0 with
              | Normal billings =>
                  if truthy (NextPageToken data) then
                    match getAccountBillings fuel' client dateRange
                            (NextPageToken data) with
                    | OutOfFuel => OutOfFuel
                    | Ret (Some nextBillings) =>
                        Ret (Some (billings ++ nextBillings)%list)
                    | Ret None => Ret (Some billings)
                    end
                  else Ret (Some billings)
              | Throw _ => Ret None
              end
          | _ => Ret None
          end
      | Rejected _ => Ret None
      end
  end.

(** ** The chat client

    [new WebClient(token).chat.postMessage(arguments)]. *)

Record AttachmentField : Set := {
  af_title : string;
  af_value : string;
  short : bool
}.

Record MessageAttachment : Set := {
  at_title : option string;
  at_text : option string;
  color : string;
  at_fields : option (list AttachmentField)
}.

Record ChatPostMessageArguments : Set := {
  channel : string;
  icon_emoji : option string;
  text : option string;
  thread_ts : option string;
  attachments : list MessageAttachment
}.

Record ChatPostMessageResponse : Set := { ok : bool; ts : option string }.

Definition WebClient : Type :=
  string -> ChatPostMessageArguments -> Reply ChatPostMessageResponse.

(** ** The handler *)

Record EventInput : Set := { type : option string }.

Definition EventInputType_ACCOUNTS : string := "accounts".
Definition EventInputType_SERVICES : string := "services".

(** [Object.values(EventInputType)] *)
Definition EventInputType_values : list string :=
  [EventInputType_ACCOUNTS; EventInputType_SERVICES].

(** [values.includes(v)] *)
Definition includes (values : list string) (v : option string) : bool :=
  existsb (fun x => strict_eq (Some x) v) values.

Record MessageAttachmentField : Set := {
  mf_title : option string;
  mf_value : string
}.

Record SlackSecret : Set := {
  token : option string;
  secret_channel : option string
}.

(** What the handler reads from outside: the environment, the secret store,
    the clock, the billing client and the chat client, and the durable
    context of [@aws/durable-execution-sdk-js], of which two things reach
    the handler: [stepRetries], how many times the context runs again a
    step that throws, and [stepError], the error with which [context.step]
    rejects once the step has thrown on every run. *)
Record World : Type := {
  SLACK_SECRET_NAME : option string;
  getSecretValue : string -> Reply (option SlackSecret);
  Date_now : JsDate.t;
  ceClient : CostExplorerClient;
  slack : WebClient;
  stepRetries : nat;
  stepError : string -> string
}.

(** The step "fetch-detail-billings". *)
Definition fetchDetailBillings (fuel : nat) (w : World) (event : EventInput)
  (dateRange : DateRange) : Run (option (list MessageAttachmentField)) :=
  if strict_eq (type event) (Some EventInputType_ACCOUNTS) then
    match getAccountBillings fuel (ceClient w) dateRange None with
    | OutOfFuel => OutOfFuel
    | Ret accountBillings =>
        Ret (option_map
               (map (fun value =>
                       {| mf_title := Some (account value);
                          mf_value := tpl (ab_amount value) ++ " " ++ tpl (ab_unit value) |}))
               accountBillings)
    end
  else if strict_eq (type event) (Some EventInputType_SERVICES) then
    match getServiceBilling fuel (ceClient w) dateRange None with
    | OutOfFuel => OutOfFuel
    | Ret serviceBillings =>
        Ret (option_map
               (map (fun value =>
                       {| mf_title := service value;
                          mf_value := tpl (sb_amount value) ++ " " ++ tpl (sb_unit value) |}))
               serviceBillings)
    end
  else Ret None.

Definition rootMessage (channel : string) (dateRange : DateRange)
  (totalBilling : option TotalBilling) : ChatPostMessageArguments :=
  {| channel := channel;
     icon_emoji := Some ":money-with-wings:";
     text := Some ("AWS Cost Reports (" ++ start dateRange ++ " - "
                     ++ end_ dateRange ++ ")");
     thread_ts := None;
     attachments :=
       [{| at_title := Some ":moneybag: Total";
           at_text := Some (tpl (optional_chain totalBilling tb_amount) ++ " "
                            ++ tpl (optional_chain totalBilling tb_unit));
           color := "#ff8c00";
           at_fields := None |}] |}.

Definition detailMessage (channel : string) (parent : option string)
  (fields : option (list MessageAttachmentField)) : ChatPostMessageArguments :=
  {| channel := channel;
     icon_emoji := None;
     text := None;
     thread_ts := parent;
     attachments :=
       [{| at_title := None;
           at_text := None;
           color := "#ffd700";
           at_fields :=
             option_map
               (map (fun filed =>
                       {| af_title := ":aws: " ++ tpl (mf_title filed);
                          af_value := mf_value filed;
                          short := false |}))
               fields |}] |}.

(** The step "post-slack-messages": the messages handed to the chat client,
    in order, and the completion of the step. *)
Definition postSlackMessages (w : World) (token channel : string)
  (dateRange : DateRange) (totalBilling : option TotalBilling)
  (fields : option (list MessageAttachmentField))
  : list ChatPostMessageArguments * Completion unit :=
  let root := rootMessage channel dateRange totalBilling in
  match slack w token root with
  | Resolved result =>
      if ok result then
        let detail := detailMessage channel (ts result) fields in
        match slack w token detail with
        | Resolved _ => ([root; detail], Normal tt)
        | Rejected reason => ([root; detail], Throw reason)
        end
      else ([root], Normal tt)
  | Rejected reason => ([root], Throw reason)
  end.

(** [context.step(name, fn)], from one run of [fn]: the messages that the
    run hands to the chat client and its completion. A run that completes
    is the result of the step. A run that throws is made again by the
    durable context, [stepRetries] times, and every run hands its messages
    to the chat client again; the world answers a request the same way
    every time, so every run ends as the first one, and the step then
    throws [stepError] of the reason. *)
Definition context_step {A : Type} (w : World)
  (run : list ChatPostMessageArguments * Completion A)
  : list ChatPostMessageArguments * Completion A :=
  match run with
  | (posted, Normal a) => (posted, Normal a)
  | (posted, Throw reason) =>
      (List.concat (repeat posted (S (stepRetries w))), Throw (stepError w reason))
  end.

(** The steps of [handler], from "fetch-slack-secret" on. The functions of
    the steps "compute-date-range", "fetch-total-billing" and
    "fetch-detail-billings" never throw, so these steps hand their results
    on. *)
Definition steps (fuel : nat) (w : World) (event : EventInput)
  (slackSecretName : string)
  : Run (list ChatPostMessageArguments * Completion string) :=
  match context_step w
          (match getSecretValue w slackSecretName with
           | Resolved value => ([], Normal value)
           | Rejected reason => ([], Throw reason)
           end) with
  | (_, Normal slackSecretValue) =>
      let secret_token := optional_chain slackSecretValue token in
      let secret_chan := optional_chain slackSecretValue secret_channel in
      if negb (truthy secret_token) || negb (truthy secret_chan) then
        Ret ([], Throw "Slack secret must contain token and channel.")
      else
        let dateRange := getDateRange (Date_now w) in
        let totalBilling := getTotalBilling (ceClient w) dateRange in
        match fetchDetailBillings fuel w event dateRange with
        | OutOfFuel => OutOfFuel
        | Ret fields =>
            match context_step w
                    (postSlackMessages w (as_string secret_token)
                       (as_string secret_chan) dateRange totalBilling fields) with
            | (posted, Normal _) => Ret (posted, Normal "OK")
            | (posted, Throw e) => Ret (posted, Throw e)
            end
        end
  | (_, Throw e) => Ret ([], Throw e)
  end.

(** [handler]: the checks of the environment and of the input, then the
    steps. The outcome is the list of messages handed to the chat client
    and the completion of the handler. *)
Definition handler (fuel : nat) (w : World) (event : EventInput)
  : Run (list ChatPostMessageArguments * Completion string) :=
  let slackSecretName := SLACK_SECRET_NAME w in
  if negb (truthy slackSecretName) then
    Ret ([], Throw "missing environment variable SLACK_SECRET_NAME.")
  else if negb (truthy (type event)) then
    Ret ([], Throw "missing input variable type")
  else if negb (includes EventInputType_values (type event)) then
    Ret ([], Throw "invalid input variable Type. Valid values are accounts or services.")
  else steps fuel w event (as_string slackSecretName).

(** ** Vocabulary of the properties

    The definitions below are not part of the program: they name what the
    properties speak about. *)

(** *** Calendar *)

(** Number of days of the month of index [m] (0 for January) of year [y]. *)
Definition last_day_of_month (y m : Z) : Z :=
  match m with
  | 1 => if JsDate.DaysInYear y =? 366 then 29 else 28
  | 3 | 5 | 8 | 10 => 30
  | _ => 31
  end.

(** The month before the month of index [m] of year [y]: its year and its
    index. *)
Definition previous_month (y m : Z) : Z * Z :=
  if m =? 0 then (y - 1, 11) else (y, m - 1).

(** The character of the last decimal digit of [n]. *)
Definition decimal_digit (n : Z) : ascii :=
  nth (Z.to_nat (n mod 10))
    ["0"; "1"; "2"; "3"; "4"; "5"; "6"; "7"; "8"; "9"]%char "0"%char.

(** The ISO 8601 calendar date YYYY-MM-DD of day [d] of month number [mm]
    (1 for January) of year [y]. *)
Definition iso_date (y mm d : Z) : string :=
  String (decimal_digit (y / 1000)) (String (decimal_digit (y / 100))
  (String (decimal_digit (y / 10)) (String (decimal_digit y)
  (String "-" (String (decimal_digit (mm / 10)) (String (decimal_digit mm)
  (String "-" (String (decimal_digit (d / 10)) (String (decimal_digit d)
  EmptyString))))))))).

Definition is_digit (c : ascii) : bool :=
  existsb (Ascii.eqb c) ["0"; "1"; "2"; "3"; "4"; "5"; "6"; "7"; "8"; "9"]%char.

(** The shape YYYY-MM-DD: ten characters, digits around two hyphens. *)
Definition is_iso_date (s : string) : bool :=
  match list_ascii_of_string s with
  | [y1; y2; y3; y4; h1; m1; m2; h2; d1; d2] =>
      forallb is_digit [y1; y2; y3; y4; m1; m2; d1; d2]
      && Ascii.eqb h1 "-" && Ascii.eqb h2 "-"
  | _ => false
  end.

(** [P] on the [n] integers from [lo] on. *)
Fixpoint all_from (P : Z -> bool) (lo : Z) (n : nat) : bool :=
  match n with
  | O => true
  | S n' => P lo && all_from P (lo + 1) n'
  end.

(** The day before [now]: the last day a report covers. *)
Definition yesterday (now : JsDate.t) : JsDate.t :=
  JsDate.ofDay (JsDate.localDay now - 1).

(** *** Response pages *)

(** A billing group that carries its keys and the requested metric. *)
Record BilledGroup : Set := { bg_keys : list string; bg_cost : MetricValue }.

Definition group_of (g : BilledGroup) : Group :=
  {| Keys := Some (bg_keys g);
     Metrics := Some {| AmortizedCost := Some (bg_cost g) |} |}.

(** A successful response page: one result bucket, with its groups. *)
Record Page : Set := {
  pg_total : option MetricMap;
  pg_groups : list BilledGroup;
  pg_attributes : option (list DimensionValuesWithAttributes);
  pg_next : option string
}.

Definition bucket_of (p : Page) : ResultByTime :=
  {| Total := pg_total p; Groups := Some (map group_of (pg_groups p)) |}.

Definition response_of (p : Page) : GetCostAndUsageCommandOutput :=
  {| ResultsByTime := Some [bucket_of p];
     NextPageToken := pg_next p;
     DimensionValueAttributes := pg_attributes p |}.

(** The row of a group in SERVICE mode. *)
Definition service_row (g : BilledGroup) : ServiceBilling :=
  {| service := hd_error (bg_keys g);
     sb_unit := Unit (bg_cost g);
     sb_amount := Amount (bg_cost g) |}.

Definition service_rows (p : Page) : list ServiceBilling :=
  map service_row (pg_groups p).

(** The attribute entry [attr] is one of the account of group [g]. *)
Definition matches (g : BilledGroup) (attr : DimensionValuesWithAttributes) : bool :=
  strict_eq (hd_error (bg_keys g)) (Value attr).

(** The row of a group and of a matching attribute entry. *)
Definition account_row (g : BilledGroup) (attr : DimensionValuesWithAttributes)
  : AccountBilling :=
  {| account := tpl (Value attr) ++ " (" ++ description_or_empty attr ++ ")";
     ab_amount := Amount (bg_cost g);
     ab_unit := Unit (bg_cost g) |}.

Definition attributes_of (p : Page) : list DimensionValuesWithAttributes :=
  match pg_attributes p with
  | Some attrs => attrs
  | None => []
  end.

Definition account_rows_of (attrs : list DimensionValuesWithAttributes)
  (g : BilledGroup) : list AccountBilling :=
  map (account_row g) (filter (matches g) attrs).

Definition account_rows (p : Page) : list AccountBilling :=
  flat_map (account_rows_of (attributes_of p)) (pg_groups p).

(** [chain client input tok pages tok']: asked with the token [tok], the
    client answers with the first of [pages], each page carries the token
    that the client answers with the next page, and the last one carries
    [tok']. *)
Fixpoint chain (client : CostExplorerClient)
  (input : option string -> GetCostAndUsageCommandInput)
  (tok : option string) (pages : list Page) (tok' : option string) : Prop :=
  match pages with
  | [] => tok' = tok
  | p :: rest =>
      client (input tok) = Resolved (response_of p) /\
      truthy (pg_next p) = true /\
      chain client input (pg_next p) rest tok'
  end.

(** A page fetch that fails: the request is rejected, or the response does
    not hold exactly one result bucket. *)
Definition page_fails (r : Reply GetCostAndUsageCommandOutput) : bool :=
  match r with
  | Resolved data =>
      match ResultsByTime data with
      | Some [_] => false
      | _ => true
      end
  | Rejected _ => true
  end.

(** What a fetch returns after the pages [pages], whose rows are [rows],
    from what it returns on the rest of the chain. *)
Definition after_pages {P A : Type} (pages : list P) (rows : list A)
  (rest : Run (option (list A))) : Run (option (list A)) :=
  match pages with
  | [] => rest
  | _ :: _ =>
      match rest with
      | OutOfFuel => OutOfFuel
      | Ret (Some nextBillings) => Ret (Some (rows ++ nextBillings)%list)
      | Ret None => Ret (Some rows)
      end
  end.

(** *** Runs of the handler *)

(** The two values of the trigger input that the handler accepts. *)
Definition valid_type (t : option string) : Prop :=
  t = Some "accounts" \/ t = Some "services".

(** The run fails: the handler throws, with an error message. *)
Definition failed (r : Run (list ChatPostMessageArguments * Completion string))
  : Prop :=
  exists posted message, r = Ret (posted, Throw message).

(** [sub] occurs in [s]. *)
Fixpoint contains (sub s : string) : bool :=
  String.prefix sub s ||
  match s with
  | EmptyString => false
  | String _ s' => contains sub s'
  end.

(** The run passes the validation steps: the secret name is configured, the
    input type is one of the two, and the secret resolves to the token
    [tok] and the channel [chan]. *)
Definition passes_validation (w : World) (event : EventInput)
  (tok chan : string) : Prop :=
  truthy (SLACK_SECRET_NAME w) = true /\
  includes EventInputType_values (type event) = true /\
  getSecretValue w (as_string (SLACK_SECRET_NAME w))
  = Resolved (Some {| token := Some tok; secret_channel := Some chan |}) /\
  tok <> "" /\ chan <> "".

(** No post to the chat is rejected. *)
Definition slack_resolves (w : World) : Prop :=
  forall tok message, exists response, slack w tok message = Resolved response.

(** The first request of the detail fetch of a validated run. *)
Definition detailInput (event : EventInput) (dateRange : DateRange)
  : GetCostAndUsageCommandInput :=
  if strict_eq (type event) (Some EventInputType_ACCOUNTS)
  then accountInput dateRange None
  else serviceInput dateRange None.

(** The request of the detail fetch of a validated run that carries the
    token [tok]. *)
Definition detailPageInput (event : EventInput) (dateRange : DateRange)
  (tok : option string) : GetCostAndUsageCommandInput :=
  if strict_eq (type event) (Some EventInputType_ACCOUNTS)
  then accountInput dateRange tok
  else serviceInput dateRange tok.

(** The fields that the detail fetch of a validated run makes of the rows
    of the pages [pages]. *)
Definition detail_fields (event : EventInput) (pages : list Page)
  : list MessageAttachmentField :=
  if strict_eq (type event) (Some EventInputType_ACCOUNTS)
  then map (fun value =>
              {| mf_title := Some (account value);
                 mf_value := tpl (ab_amount value) ++ " " ++ tpl (ab_unit value) |})
         (List.concat (map account_rows pages))
  else map (fun value =>
              {| mf_title := service value;
                 mf_value := tpl (sb_amount value) ++ " " ++ tpl (sb_unit value) |})
         (List.concat (map service_rows pages)).

(** Everything but the input type is in order: the secret name and the
    secret, the chat, and a detail fetch that returns within [fuel]. *)
Definition healthy (fuel : nat) (w : World) : Prop :=
  truthy (SLACK_SECRET_NAME w) = true /\
  (exists tok chan,
     getSecretValue w (as_string (SLACK_SECRET_NAME w))
     = Resolved (Some {| token := Some tok; secret_channel := Some chan |}) /\
     tok <> "" /\ chan <> "") /\
  slack_resolves w /\
  (forall event,
     fetchDetailBillings fuel w event (getDateRange (Date_now w)) <> OutOfFuel).

(** ** Sample data: the responses and the world of the handler's tests *)

Definition usd (amount : string) : MetricValue :=
  {| Amount := Some amount; Unit := Some "USD" |}.

Definition sample_token : string := "XXXxxXXXxxXXXxxXXXxxXXXxxXXXxxXXXxxXXXxx".

Definition total_page : Page :=
  {| pg_total := Some {| AmortizedCost := Some (usd "1.23456") |};
     pg_groups := [];
     pg_attributes := None;
     pg_next := None |}.

Definition service_page_1 : Page :=
  {| pg_total := Some {| AmortizedCost := None |};
     pg_groups := [{| bg_keys := ["AWS CloudTrail"]; bg_cost := usd "0" |};
                   {| bg_keys := ["AWS Config"]; bg_cost := usd "0.012" |}];
     pg_attributes := None;
     pg_next := Some sample_token |}.

Definition service_page_2 : Page :=
  {| pg_total := Some {| AmortizedCost := None |};
     pg_groups := [{| bg_keys := ["Tax"]; bg_cost := usd "1.39" |}];
     pg_attributes := None;
     pg_next := None |}.

Definition described (id text : string) : DimensionValuesWithAttributes :=
  {| Value := Some id; Attributes := Some {| description := Some text |} |}.

Definition account_page_1 : Page :=
  {| pg_total := Some {| AmortizedCost := None |};
     pg_groups := [{| bg_keys := ["111111111111"]; bg_cost := usd "1.23456" |};
                   {| bg_keys := ["222222222222"]; bg_cost := usd "6.8423283327" |};
                   {| bg_keys := ["333333333333"]; bg_cost := usd "7.1233988094" |}];
     pg_attributes := Some [described "111111111111" "Example System 1A";
                            described "222222222222" "Example System 2A";
                            described "333333333333" "Example System 3A"];
     pg_next := Some sample_token |}.

Definition account_page_2 : Page :=
  {| pg_total := Some {| AmortizedCost := None |};
     pg_groups := [{| bg_keys := ["444444444444"]; bg_cost := usd "0.4724468979" |}];
     pg_attributes := Some [described "444444444444" "Example System 4A"];
     pg_next := None |}.

(** A page with an account that the attribute list does not describe. *)
Definition undescribed_account_page : Page :=
  {| pg_total := Some {| AmortizedCost := None |};
     pg_groups := [{| bg_keys := ["111111111111"]; bg_cost := usd "1.23456" |};
                   {| bg_keys := ["999999999999"]; bg_cost := usd "6.8423283327" |}];
     pg_attributes := Some [described "111111111111" "Example System 1A"];
     pg_next := None |}.

(** A page whose attribute list holds two entries for one account, the
    second one without a description. *)
Definition twice_described_account_page : Page :=
  {| pg_total := Some {| AmortizedCost := None |};
     pg_groups := [{| bg_keys := ["111111111111"]; bg_cost := usd "1.23456" |}];
     pg_attributes := Some [described "111111111111" "Example System 1A";
                            {| Value := Some "111111111111"; Attributes := None |}];
     pg_next := None |}.

(** The grouping key of a request, when it has one. *)
Definition grouping_key (input : GetCostAndUsageCommandInput) : option string :=
  match GroupBy input with
  | Some [g] => Some (Key g)
  | _ => None
  end.

(** A client that answers the first request of a grouping with [first] and
    the request carrying [sample_token] with [second]. *)
Definition paged (first second : Reply GetCostAndUsageCommandOutput)
  (input : GetCostAndUsageCommandInput) : Reply GetCostAndUsageCommandOutput :=
  match in_NextPageToken input with
  | None => first
  | Some t => if (t =? sample_token)%string then second
              else Rejected "unknown token"
  end.

(** The client of the tests that succeed. *)
Definition sample_client : CostExplorerClient :=
  fun input =>
    match grouping_key input with
    | None => Resolved (response_of total_page)
    | Some key =>
        if (key =? "SERVICE")%string then
          paged (Resolved (response_of service_page_1))
                (Resolved (response_of service_page_2)) input
        else
          paged (Resolved (response_of account_page_1))
                (Resolved (response_of account_page_2)) input
    end.

(** A client whose second page fails. *)
Definition second_page_fails_client : CostExplorerClient :=
  fun input =>
    match grouping_key input with
    | None => Resolved (response_of total_page)
    | Some key =>
        if (key =? "SERVICE")%string then
          paged (Resolved (response_of service_page_1)) (Rejected "throttled") input
        else
          paged (Resolved (response_of account_page_1)) (Rejected "throttled") input
    end.

(** A client that answers the account request with the page of the
    undescribed account. *)
Definition undescribed_account_client : CostExplorerClient :=
  fun _ => Resolved (response_of undescribed_account_page).

(** The client of the tests in which every request is rejected. *)
Definition rejecting_client : CostExplorerClient :=
  fun _ => Rejected "rejected".

Definition sample_secret : SlackSecret :=
  {| token := Some "xxxx-xxxxxxxxx-xxxx"; secret_channel := Some "example-channel" |}.

Definition sample_world (client : CostExplorerClient) (root_ok : bool) : World :=
  {| SLACK_SECRET_NAME := Some "example/slack/webhook";
     getSecretValue := fun _ => Resolved (Some sample_secret);
     Date_now := JsDate.make 2023 1 23;
     ceClient := client;
     slack := fun _ _ => Resolved {| ok := root_ok; ts := Some "1677117722.000100" |};
     stepRetries := 5;
     stepError := fun reason => reason |}.

Definition sample_range : DateRange :=
  {| start := "2023-02-01"; end_ := "2023-02-22" |}.

Definition services_event : EventInput := {| type := Some "services" |}.

Definition accounts_event : EventInput := {| type := Some "accounts" |}.

(** ** The construct that schedules the handler
    ([src/constructs/daily-cost-reporter.ts])

    Of the resources that [DailyCostReporter] provisions, the two that
    reach the handler: the environment of the function and the input of the
    schedule's target. *)






(** ** Vocabulary of the further properties *)

(** The first day of the month of [d]. *)
Definition first_day_of_month (d : JsDate.t) : JsDate.t :=
  JsDate.ofDay (JsDate.MakeDay (JsDate.getFullYear d) (JsDate.getMonth d) 1).

(** The field of the detail message for a group of a SERVICE page. *)
Definition service_field (g : BilledGroup) : AttachmentField :=
  {| af_title := ":aws: " ++ tpl (hd_error (bg_keys g));
     af_value := tpl (Amount (bg_cost g)) ++ " " ++ tpl (Unit (bg_cost g));
     short := false |}.

(** The field of the detail message for a row of a LINKED_ACCOUNT page. *)
Definition account_field (row : AccountBilling) : AttachmentField :=
  {| af_title := ":aws: " ++ account row;
     af_value := tpl (ab_amount row) ++ " " ++ tpl (ab_unit row);
     short := false |}.

(** The world [w] with another billing client. *)
Definition with_client (w : World) (client : CostExplorerClient) : World :=
  {| SLACK_SECRET_NAME := SLACK_SECRET_NAME w;
     getSecretValue := getSecretValue w;
     Date_now := Date_now w;
     ceClient := client;
     slack := slack w;
     stepRetries := stepRetries w;
     stepError := stepError w |}.

(** A client that answers every request with the first SERVICE page, whose
    token leads to the same page again. *)
Definition looping_client : CostExplorerClient :=
  fun _ => Resolved (response_of service_page_1).

(** A SERVICE response whose second group carries no metrics. *)
Definition group_without_metrics_response : GetCostAndUsageCommandOutput :=
  {| ResultsByTime :=
       Some [{| Total := None;
                Groups := Some [group_of {| bg_keys := ["AWS CloudTrail"];
                                            bg_cost := usd "0" |};
                                {| Keys := Some ["AWS Config"]; Metrics := None |}] |}];
     NextPageToken := None;
     DimensionValueAttributes := None |}.

(** A world whose chat rejects the root post, or the threaded post only. *)
Definition rejecting_slack_world (root_rejected : bool) : World :=
  {| SLACK_SECRET_NAME := Some "example/slack/webhook";
     getSecretValue := fun _ => Resolved (Some sample_secret);
     Date_now := JsDate.make 2023 1 23;
     ceClient := rejecting_client;
     slack := fun _ message =>
                match thread_ts message with
                | None => if root_rejected then Rejected "channel_not_found"
                          else Resolved {| ok := true; ts := Some "1" |}
                | Some _ => Rejected "ratelimited"
                end;
     stepRetries := 5;
     stepError := fun reason => reason |}.

(** A client that rejects the LINKED_ACCOUNT requests and answers the
    others as [sample_client] does. *)
Definition services_only_client : CostExplorerClient :=
  fun input =>
    match grouping_key input with
    | Some key =>
        if (key =? "LINKED_ACCOUNT")%string then Rejected "access denied"
        else sample_client input
    | None => sample_client input
    end.

(** * Properties *)

(** ** The calendar of the [Date] built-in *)

Import JsDate.

(** Case analysis on a month index between 0 and 11. *)
Ltac month_cases m :=
  let H := fresh in
  assert (H : m = 0 \/ m = 1 \/ m = 2 \/ m = 3 \/ m = 4 \/ m = 5 \/ m = 6 \/
              m = 7 \/ m = 8 \/ m = 9 \/ m = 10 \/ m = 11) by lia;
  repeat (destruct H as [H | H]; [subst m | ]); [ .. | subst m].

(** Case analysis on every comparison [a <? b] of the goal. *)
Ltac split_ltb :=
  repeat match goal with
         | |- context [?a <? ?b] => destruct (Z.ltb_spec a b)
         end.

Lemma DaysInYear_cases y : DaysInYear y = 365 \/ DaysInYear y = 366.
Proof.
  unfold DaysInYear.
  repeat match goal with
         | |- context [negb ?b] => destruct b; cbn [negb]
         end; auto.
Qed.

Lemma DayFromYear_succ y : DayFromYear (y + 1) = DayFromYear y + DaysInYear y.
Proof.
  unfold DayFromYear, DaysInYear.
  destruct (Z.eqb_spec (y mod 4) 0); cbn [negb];
    [destruct (Z.eqb_spec (y mod 100) 0); cbn [negb];
      [destruct (Z.eqb_spec (y mod 400) 0); cbn [negb] | ] | ];
    Z.div_mod_to_equations; lia.
Qed.

Lemma YearFromDay_estimate y d :
  DayFromYear y <= d < DayFromYear (y + 1) ->
  y - 1 <= 1970 + (400 * d) / 146097 <= y + 1.
Proof.
  unfold DayFromYear. intros H. Z.div_mod_to_equations. lia.
Qed.

(** [YearFromDay d] is the year whose days hold [d]. *)
Lemma YearFromDay_unique y d :
  DayFromYear y <= d < DayFromYear (y + 1) -> YearFromDay d = y.
Proof.
  intros H. pose proof (YearFromDay_estimate y d H) as He.
  unfold YearFromDay. set (e := 1970 + 400 * d / 146097) in *.
  pose proof (DayFromYear_succ (y - 1)) as H1.
  pose proof (DayFromYear_succ (y + 1)) as H2.
  pose proof (DayFromYear_succ y) as H3.
  pose proof (DaysInYear_cases (y - 1)). pose proof (DaysInYear_cases y).
  pose proof (DaysInYear_cases (y + 1)).
  replace (y - 1 + 1) with y in H1 by lia.
  assert (e = y - 1 \/ e = y \/ e = y + 1) as [-> | [-> | ->]] by lia.
  - replace (y - 1 + 1) with y by lia.
    destruct (Z.ltb_spec d (DayFromYear (y - 1))); [lia|].
    destruct (Z.leb_spec (DayFromYear y) d); lia.
  - destruct (Z.ltb_spec d (DayFromYear y)); [lia|].
    destruct (Z.leb_spec (DayFromYear (y + 1)) d); lia.
  - destruct (Z.ltb_spec d (DayFromYear (y + 1))); lia.
Qed.

Lemma YearFromDay_bounds d :
  DayFromYear (YearFromDay d) <= d < DayFromYear (YearFromDay d + 1).
Proof.
  unfold YearFromDay. set (e := 1970 + 400 * d / 146097).
  assert (DayFromYear (e - 1) <= d < DayFromYear (e + 2)) as Hb.
  { subst e. unfold DayFromYear. Z.div_mod_to_equations. lia. }
  destruct (Z.ltb_spec d (DayFromYear e)).
  - replace (e - 1 + 1) with e by lia. lia.
  - destruct (Z.leb_spec (DayFromYear (e + 1)) d).
    + replace (e + 1 + 1) with (e + 2) by lia. lia.
    + lia.
Qed.

Lemma MakeDay_small y m dd :
  0 <= m <= 11 -> MakeDay y m dd = DayFromMonth y m + dd - 1.
Proof.
  intros Hm. unfold MakeDay.
  now rewrite Z.div_small, Z.mod_small, Z.add_0_r by lia.
Qed.

Lemma MonthFromDay_range d : 0 <= MonthFromDay d <= 11.
Proof.
  unfold MonthFromDay.
  repeat match goal with
         | |- context [?a <? ?b] => destruct (a <? b)
         end; lia.
Qed.

Lemma last_day_of_month_range y m : 28 <= last_day_of_month y m <= 31.
Proof.
  unfold last_day_of_month.
  destruct m as [| p | p]; try lia.
  repeat (destruct p as [p | p |]; try lia);
    destruct (DaysInYear y =? 366); lia.
Qed.

Lemma MakeDay_in_year y m dd :
  0 <= m <= 11 -> 1 <= dd <= last_day_of_month y m ->
  DayFromYear y <= MakeDay y m dd < DayFromYear (y + 1).
Proof.
  intros Hm Hd. rewrite DayFromYear_succ.
  rewrite MakeDay_small by assumption.
  unfold DayFromMonth, last_day_of_month in *.
  destruct (DaysInYear_cases y) as [E | E]; rewrite E in *;
    cbn [Z.eqb Pos.eqb] in *; month_cases m; cbn in Hd |- *; lia.
Qed.

(** The fields of the day built from a calendar date are that date. *)
Lemma fields_of_MakeDay y m dd :
  0 <= m <= 11 -> 1 <= dd <= last_day_of_month y m ->
  YearFromDay (MakeDay y m dd) = y /\
  MonthFromDay (MakeDay y m dd) = m /\
  DateFromDay (MakeDay y m dd) = dd.
Proof.
  intros Hm Hd.
  assert (Hy : YearFromDay (MakeDay y m dd) = y)
    by (apply YearFromDay_unique, MakeDay_in_year; assumption).
  split; [exact Hy|].
  unfold DateFromDay, MonthFromDay, DayWithinYear, InLeapYear. rewrite Hy.
  rewrite MakeDay_small by assumption.
  unfold DayFromMonth, last_day_of_month in *.
  destruct (DaysInYear_cases y) as [E | E]; rewrite E in *;
    cbn [Z.eqb Pos.eqb] in *; month_cases m; cbn [Z.eqb Pos.eqb] in Hd;
    repeat match goal with
           | |- context [?a <? ?b] => destruct (Z.ltb_spec a b); try lia
           end; split; lia.
Qed.

(** Every day is the day built from its own fields, which are a calendar
    date. *)
Lemma MakeDay_of_fields d :
  1 <= DateFromDay d <= last_day_of_month (YearFromDay d) (MonthFromDay d) /\
  MakeDay (YearFromDay d) (MonthFromDay d) (DateFromDay d) = d.
Proof.
  rewrite (MakeDay_small _ _ _ (MonthFromDay_range d)).
  pose proof (YearFromDay_bounds d) as Hb. rewrite DayFromYear_succ in Hb.
  unfold DateFromDay, MonthFromDay, DayWithinYear, InLeapYear.
  set (y := YearFromDay d) in *.
  destruct (DaysInYear_cases y) as [E | E]; rewrite E in *; cbn [Z.eqb Pos.eqb];
    split_ltb;
    unfold DayFromMonth, last_day_of_month; rewrite ?E; cbn [Z.eqb Pos.eqb]; lia.
Qed.

Lemma make_MakeDay y m d : 100 <= y -> make y m d = ofDay (MakeDay y m d).
Proof.
  intros Hy. unfold make.
  destruct (Z.leb_spec 0 y); destruct (Z.leb_spec y 99); cbn [andb];
    try reflexivity; lia.
Qed.

(** A month index of -1 is the last month of the year before. *)
Lemma MakeDay_previous_month y m d :
  0 <= m <= 11 ->
  MakeDay y (m - 1) d
  = MakeDay (fst (previous_month y m)) (snd (previous_month y m)) d.
Proof.
  intros Hm. unfold previous_month.
  destruct (Z.eqb_spec m 0) as [-> | Hne]; cbn [fst snd].
  - unfold MakeDay.
    replace ((0 - 1) / 12) with (-1) by reflexivity.
    replace ((0 - 1) mod 12) with 11 by reflexivity.
    replace (11 / 12) with 0 by reflexivity.
    replace (11 mod 12) with 11 by reflexivity.
    replace (y + -1) with (y - 1 + 0) by lia. reflexivity.
  - reflexivity.
Qed.

Lemma previous_month_range y m :
  0 <= m <= 11 -> 0 <= snd (previous_month y m) <= 11.
Proof.
  intros Hm. unfold previous_month.
  destruct (Z.eqb_spec m 0); cbn [snd]; lia.
Qed.

(** Day 0 of a month is the last day of the month before. *)
Lemma MakeDay_last_day_of_previous_month y m :
  0 <= m <= 11 ->
  MakeDay (fst (previous_month y m)) (snd (previous_month y m))
    (last_day_of_month (fst (previous_month y m)) (snd (previous_month y m)))
  = MakeDay y m 0.
Proof.
  intros Hm.
  rewrite (MakeDay_small _ _ _ (previous_month_range y m Hm)).
  rewrite (MakeDay_small _ _ _ Hm).
  unfold previous_month.
  destruct (Z.eqb_spec m 0) as [-> | Hne]; cbn [fst snd].
  - unfold DayFromMonth, last_day_of_month.
    pose proof (DayFromYear_succ (y - 1)) as Hs.
    replace (y - 1 + 1) with y in Hs by lia.
    destruct (DaysInYear_cases (y - 1)) as [E | E]; rewrite E in *;
      cbn [Z.eqb Pos.eqb]; lia.
  - unfold DayFromMonth, last_day_of_month.
    destruct (DaysInYear_cases y) as [E | E]; rewrite E;
      cbn [Z.eqb Pos.eqb]; month_cases m; cbn; lia.
Qed.

(** ** The format of a date *)

Lemma all_from_spec P n :
  forall lo, all_from P lo n = true ->
  forall z, lo <= z < lo + Z.of_nat n -> P z = true.
Proof.
  induction n as [| n IH]; intros lo H z Hz.
  - simpl in Hz. lia.
  - cbn [all_from] in H. apply andb_true_iff in H as [H0 H1].
    destruct (Z.eq_dec z lo) as [-> | Hne]; [assumption|].
    apply (IH (lo + 1) H1). lia.
Qed.

(** A year of four digits is printed as these digits: checked on each. *)
Lemma year_four_digits y :
  1000 <= y <= 9999 ->
  number_to_string y =
  String (decimal_digit (y / 1000)) (String (decimal_digit (y / 100))
  (String (decimal_digit (y / 10)) (String (decimal_digit y) ""))).
Proof.
  intros Hy. apply String.eqb_eq.
  apply (all_from_spec
           (fun y => (number_to_string y =?
              String (decimal_digit (y / 1000)) (String (decimal_digit (y / 100))
              (String (decimal_digit (y / 10)) (String (decimal_digit y) ""))))%string)
           (Z.to_nat 9000) 1000).
  - vm_compute. reflexivity.
  - lia.
Qed.

(** The padding ['00' + k] cut to its last two characters, for the numbers
    of a month and of a day. *)
Lemma two_digits k :
  1 <= k <= 31 ->
  slice_last 2 ("00" ++ number_to_string k) =
  String (decimal_digit (k / 10)) (String (decimal_digit k) "").
Proof.
  intros Hk. apply String.eqb_eq.
  apply (all_from_spec
           (fun k => (slice_last 2 ("00" ++ number_to_string k) =?
              String (decimal_digit (k / 10)) (String (decimal_digit k) ""))%string)
           (Z.to_nat 31) 1).
  - vm_compute. reflexivity.
  - lia.
Qed.

Lemma dateFormatString_iso y m d :
  1000 <= y <= 9999 -> 0 <= m <= 11 -> 1 <= d <= last_day_of_month y m ->
  dateFormatString (ofDay (MakeDay y m d)) = iso_date y (m + 1) d.
Proof.
  intros Hy Hm Hd.
  destruct (fields_of_MakeDay y m d Hm Hd) as (Ey & Em & Ed).
  pose proof (last_day_of_month_range y m).
  unfold dateFormatString, getFullYear, getMonth, getDate. cbn [localDay].
  rewrite Ey, Em, Ed.
  rewrite (year_four_digits y Hy), (two_digits (m + 1)), (two_digits d) by lia.
  reflexivity.
Qed.

Lemma is_digit_decimal_digit n : is_digit (decimal_digit n) = true.
Proof.
  unfold decimal_digit.
  assert (H : (Z.to_nat (n mod 10) < 10)%nat)
    by (pose proof (Z.mod_pos_bound n 10); lia).
  revert H. generalize (Z.to_nat (n mod 10)) as k. intros k H.
  do 10 (destruct k as [| k]; [reflexivity |]). lia.
Qed.

Lemma is_iso_date_iso_date y mm d : is_iso_date (iso_date y mm d) = true.
Proof.
  unfold is_iso_date, iso_date. cbn [list_ascii_of_string forallb].
  rewrite !is_digit_decimal_digit. reflexivity.
Qed.

(** ** The reporting period *)

(** C1, as amended. For every instant [now] whose day before (the last day
    reported) lies in a year from 1000 to 9999: on the first day of a month
    [getDateRange] returns the first day and the last day of the previous
    calendar month; on day N > 1 of month M it returns the first day of M
    and day N - 1 of M; each one is written YYYY-MM-DD. *)
Theorem getDateRange_reporting_period (now : JsDate.t) :
  let y := getFullYear now in
  let m := getMonth now in
  let N := getDate now in
  let py := fst (previous_month y m) in
  let pm := snd (previous_month y m) in
  1000 <= getFullYear (yesterday now) <= 9999 ->
  (N = 1 ->
   getDateRange now =
   {| start := iso_date py (pm + 1) 1;
      end_ := iso_date py (pm + 1) (last_day_of_month py pm) |})
  /\
  (1 < N ->
   getDateRange now =
   {| start := iso_date y (m + 1) 1;
      end_ := iso_date y (m + 1) (N - 1) |})
  /\
  is_iso_date (start (getDateRange now)) = true
  /\
  is_iso_date (end_ (getDateRange now)) = true.
Proof.
  intros y m N py pm Hyear. destruct now as [d].
  unfold getFullYear, getMonth, getDate, yesterday in y, m, N, Hyear.
  cbn [localDay] in y, m, N, Hyear.
  destruct (MakeDay_of_fields d) as [HN Hd].
  pose proof (MonthFromDay_range d) as Hm.
  fold y m N in HN, Hd, Hm.
  assert (Hfirst : N = 1 ->
            getDateRange (ofDay d) =
            {| start := iso_date py (pm + 1) 1;
               end_ := iso_date py (pm + 1) (last_day_of_month py pm) |}).
  { intros HN1.
    unfold getDateRange, getFullYear, getMonth, getDate. cbn [localDay].
    fold y m N. rewrite HN1, Z.eqb_refl.
    pose proof (previous_month_range y m Hm) as Hpm. fold pm in Hpm.
    pose proof (MakeDay_last_day_of_previous_month y m Hm) as Hlast.
    fold py pm in Hlast.
    pose proof (last_day_of_month_range py pm) as Hl.
    assert (Hyest : MakeDay py pm (last_day_of_month py pm) = d - 1).
    { rewrite Hlast. rewrite HN1 in Hd. unfold MakeDay in Hd |- *. lia. }
    assert (Hpy : YearFromDay (d - 1) = py).
    { rewrite <- Hyest. apply fields_of_MakeDay; lia. }
    rewrite Hpy in Hyear.
    assert (Hy : 100 <= y).
    { subst py. unfold previous_month in Hyear.
      destruct (m =? 0); cbn [fst] in Hyear; lia. }
    rewrite !make_MakeDay by assumption.
    rewrite (MakeDay_previous_month y m 1 Hm). fold py pm.
    rewrite <- Hlast.
    rewrite !dateFormatString_iso by lia. reflexivity. }
  assert (Hlater : 1 < N ->
            getDateRange (ofDay d) =
            {| start := iso_date y (m + 1) 1;
               end_ := iso_date y (m + 1) (N - 1) |}).
  { intros HN1.
    unfold getDateRange, getFullYear, getMonth, getDate. cbn [localDay].
    fold y m N. destruct (Z.eqb_spec N 1) as [? | _]; [lia|].
    assert (Hyest : MakeDay y m (N - 1) = d - 1).
    { unfold MakeDay in Hd |- *. lia. }
    assert (Hy : YearFromDay (d - 1) = y).
    { rewrite <- Hyest. apply fields_of_MakeDay; lia. }
    rewrite Hy in Hyear.
    rewrite !make_MakeDay by lia.
    rewrite !dateFormatString_iso by lia. reflexivity. }
  split; [exact Hfirst |]. split; [exact Hlater |].
  destruct (Z.eq_dec N 1) as [HN1 | HN1].
  - rewrite (Hfirst HN1). cbn [start end_]. now rewrite !is_iso_date_iso_date.
  - rewrite (Hlater ltac:(lia)). cbn [start end_]. now rewrite !is_iso_date_iso_date.
Qed.

(** The two dates of the tests: on 2023-02-23 the period is 2023-02-01 to
    2023-02-22, and on 2023-02-01 it is 2023-01-01 to 2023-01-31. *)
Lemma getDateRange_reporting_period_witness :
  getDateRange (JsDate.make 2023 1 23) = sample_range
  /\
  getDateRange (JsDate.make 2023 1 1)
  = {| start := "2023-01-01"; end_ := "2023-01-31" |}.
Proof.
  split.
  - refine (proj1 (proj2 (getDateRange_reporting_period (JsDate.make 2023 1 23) _)) _).
    + vm_compute. split; discriminate.
    + vm_compute. reflexivity.
  - refine (proj1 (getDateRange_reporting_period (JsDate.make 2023 1 1) _) _).
    + vm_compute. split; discriminate.
    + vm_compute. reflexivity.
Defined.

(** C1 as stated fails on 10000-03-15: the day of the month is 15, and the
    dates returned carry a year of five digits, which is not YYYY-MM-DD. *)
Lemma getDateRange_five_digit_year :
  JsDate.getDate (JsDate.make 10000 2 15) = 15 /\
  getDateRange (JsDate.make 10000 2 15)
  = {| start := "10000-03-01"; end_ := "10000-03-14" |} /\
  is_iso_date (start (getDateRange (JsDate.make 10000 2 15))) = false.
Proof. vm_compute. repeat split. Qed.

Close Scope Z_scope.

(** ** The rows of a page *)

Lemma for_of_push_service (gs : list BilledGroup) :
  forall acc,
  for_of (map group_of gs) push_service acc
  = Normal (acc ++ map service_row gs)%list.
Proof.
  induction gs as [| g gs IH]; intros acc; cbn [map for_of].
  - now rewrite app_nil_r.
  - unfold push_service at 1. cbn [group_of Keys Metrics AmortizedCost deref bind].
    rewrite IH, <- app_assoc. reflexivity.
Qed.

Lemma for_of_push_account (g : BilledGroup)
  (attrs : list DimensionValuesWithAttributes) :
  forall acc,
  for_of attrs (push_account (group_of g)) acc
  = Normal (acc ++ account_rows_of attrs g)%list.
Proof.
  unfold account_rows_of.
  induction attrs as [| a attrs IH]; intros acc; cbn [for_of filter map].
  - now rewrite app_nil_r.
  - unfold push_account at 1. cbn [group_of Keys Metrics AmortizedCost deref bind].
    fold (matches g a). destruct (matches g a); cbn [bind map].
    + rewrite IH, <- app_assoc. reflexivity.
    + apply IH.
Qed.

Lemma serviceBillingsOfPage_rows (p : Page) :
  serviceBillingsOfPage (bucket_of p) = Normal (service_rows p).
Proof.
  unfold serviceBillingsOfPage. cbn [bucket_of Groups deref bind].
  apply for_of_push_service.
Qed.

Lemma accountBillingsOfPage_rows (p : Page) :
  accountBillingsOfPage (response_of p) (bucket_of p) = Normal (account_rows p).
Proof.
  unfold accountBillingsOfPage, account_rows.
  cbn [bucket_of response_of Groups DimensionValueAttributes deref bind].
  fold (attributes_of p). generalize (attributes_of p) as attrs. intros attrs.
  enough (H : forall acc,
             for_of (map group_of (pg_groups p))
               (fun billings item => for_of attrs (push_account item) billings) acc
             = Normal (acc ++ flat_map (account_rows_of attrs) (pg_groups p))%list)
    by apply (H []).
  induction (pg_groups p) as [| g gs IH]; intros acc; cbn [map for_of flat_map].
  - now rewrite app_nil_r.
  - rewrite for_of_push_account. cbn [bind]. rewrite IH, <- app_assoc. reflexivity.
Qed.

Lemma strict_eq_true a b : strict_eq a b = true <-> a = b.
Proof.
  destruct a as [x |], b as [y |]; cbn [strict_eq].
  - rewrite String.eqb_eq. split; congruence.
  - split; discriminate.
  - split; discriminate.
  - split; reflexivity.
Qed.

(** ** Pagination *)

Section Pagination.

Variable client : CostExplorerClient.
Variable dateRange : DateRange.

(** One call of each fetch on a successful page. *)
Lemma getServiceBilling_page fuel tok p :
  client (serviceInput dateRange tok) = Resolved (response_of p) ->
  getServiceBilling (S fuel) client dateRange tok =
  if truthy (pg_next p) then
    match getServiceBilling fuel client dateRange (pg_next p) with
    | OutOfFuel => OutOfFuel
    | Ret (Some nextBillings) => Ret (Some (service_rows p ++ nextBillings)%list)
    | Ret None => Ret (Some (service_rows p))
    end
  else Ret (Some (service_rows p)).
Proof.
  intros H. cbn [getServiceBilling]. rewrite H.
  cbn [response_of ResultsByTime NextPageToken].
  rewrite serviceBillingsOfPage_rows. reflexivity.
Qed.

Lemma getAccountBillings_page fuel tok p :
  client (accountInput dateRange tok) = Resolved (response_of p) ->
  getAccountBillings (S fuel) client dateRange tok =
  if truthy (pg_next p) then
    match getAccountBillings fuel client dateRange (pg_next p) with
    | OutOfFuel => OutOfFuel
    | Ret (Some nextBillings) => Ret (Some (account_rows p ++ nextBillings)%list)
    | Ret None => Ret (Some (account_rows p))
    end
  else Ret (Some (account_rows p)).
Proof.
  intros H. cbn [getAccountBillings]. rewrite H.
  cbn [ResultsByTime NextPageToken]. unfold response_of at 1 3 4.
  cbn [ResultsByTime NextPageToken].
  rewrite accountBillingsOfPage_rows. reflexivity.
Qed.

(** One call of each fetch on a page that fails. *)
Lemma getServiceBilling_fails fuel tok :
  page_fails (client (serviceInput dateRange tok)) = true ->
  getServiceBilling (S fuel) client dateRange tok = Ret None.
Proof.
  cbn [getServiceBilling]. unfold page_fails.
  destruct (client (serviceInput dateRange tok)) as [data | reason]; [| reflexivity].
  destruct (ResultsByTime data) as [[| r0 [| r1 rs]] |];
    try reflexivity; discriminate.
Qed.

Lemma getAccountBillings_fails fuel tok :
  page_fails (client (accountInput dateRange tok)) = true ->
  getAccountBillings (S fuel) client dateRange tok = Ret None.
Proof.
  cbn [getAccountBillings]. unfold page_fails.
  destruct (client (accountInput dateRange tok)) as [data | reason]; [| reflexivity].
  destruct (ResultsByTime data) as [[| r0 [| r1 rs]] |];
    try reflexivity; discriminate.
Qed.

(** A fetch along a chain of pages: their rows, in order, before what the
    fetch returns from the end of the chain on. *)
Lemma getServiceBilling_chain tok' fuel :
  forall pages tok,
  chain client (serviceInput dateRange) tok pages tok' ->
  getServiceBilling (List.length pages + fuel) client dateRange tok
  = after_pages pages (List.concat (map service_rows pages))
      (getServiceBilling fuel client dateRange tok').
Proof.
  induction pages as [| p ps IH]; intros tok Hc.
  - cbn in Hc. subst tok'. reflexivity.
  - destruct Hc as (Hp & Ht & Hc).
    cbn [List.length Nat.add]. rewrite (getServiceBilling_page _ _ p Hp), Ht.
    rewrite (IH _ Hc). cbn [map List.concat after_pages].
    destruct ps as [| q qs]; cbn [after_pages map List.concat].
    + rewrite app_nil_r.
      destruct (getServiceBilling fuel client dateRange tok') as [| [next |]];
        reflexivity.
    + destruct (getServiceBilling fuel client dateRange tok') as [| [next |]];
        rewrite ?app_assoc; reflexivity.
Qed.

Lemma getAccountBillings_chain tok' fuel :
  forall pages tok,
  chain client (accountInput dateRange) tok pages tok' ->
  getAccountBillings (List.length pages + fuel) client dateRange tok
  = after_pages pages (List.concat (map account_rows pages))
      (getAccountBillings fuel client dateRange tok').
Proof.
  induction pages as [| p ps IH]; intros tok Hc.
  - cbn in Hc. subst tok'. reflexivity.
  - destruct Hc as (Hp & Ht & Hc).
    cbn [List.length Nat.add]. rewrite (getAccountBillings_page _ _ p Hp), Ht.
    rewrite (IH _ Hc). cbn [map List.concat after_pages].
    destruct ps as [| q qs]; cbn [after_pages map List.concat].
    + rewrite app_nil_r.
      destruct (getAccountBillings fuel client dateRange tok') as [| [next |]];
        reflexivity.
    + destruct (getAccountBillings fuel client dateRange tok') as [| [next |]];
        rewrite ?app_assoc; reflexivity.
Qed.

(** C4. Pages linked by continuation tokens, each successful and with one
    result bucket, the last one without a token: with a call per page, the
    grouped fetch returns the rows of all the pages, page after page, the
    rows of a page in the order of its groups. In SERVICE mode a page gives
    one row per group ([service_rows]); in LINKED_ACCOUNT mode it gives the
    rows of its join ([account_rows]). *)
Theorem grouped_fetch_concatenates_pages front last tok' fuel :
  truthy (pg_next last) = false ->
  (chain client (serviceInput dateRange) None front tok' ->
   client (serviceInput dateRange tok') = Resolved (response_of last) ->
   getServiceBilling (List.length (front ++ [last])%list + fuel) client dateRange None
   = Ret (Some (List.concat (map service_rows (front ++ [last])%list))))
  /\
  (chain client (accountInput dateRange) None front tok' ->
   client (accountInput dateRange tok') = Resolved (response_of last) ->
   getAccountBillings (List.length (front ++ [last])%list + fuel) client dateRange None
   = Ret (Some (List.concat (map account_rows (front ++ [last])%list)))).
Proof.
  intros Hend.
  rewrite length_app, !map_app, !concat_app. cbn [List.length map List.concat].
  replace (List.length front + 1 + fuel) with (List.length front + S fuel) by lia.
  rewrite !app_nil_r.
  split; intros Hc Hlast.
  - rewrite (getServiceBilling_chain _ _ _ _ Hc).
    rewrite (getServiceBilling_page _ _ last Hlast), Hend.
    destruct front; reflexivity.
  - rewrite (getAccountBillings_chain _ _ _ _ Hc).
    rewrite (getAccountBillings_page _ _ last Hlast), Hend.
    destruct front; reflexivity.
Qed.

(** C2, as amended. In either grouping mode: when the fetch of the first
    page fails (the request is rejected, or the response does not hold
    exactly one result bucket), the grouped fetch returns absent; when the
    pages [front] were fetched and the fetch of the page after them fails,
    it returns the rows of [front], the pages before the failure. *)
Theorem grouped_fetch_failure front tok' fuel :
  (chain client (serviceInput dateRange) None front tok' ->
   page_fails (client (serviceInput dateRange tok')) = true ->
   getServiceBilling (List.length front + S fuel) client dateRange None
   = match front with
     | [] => Ret None
     | _ :: _ => Ret (Some (List.concat (map service_rows front)))
     end)
  /\
  (chain client (accountInput dateRange) None front tok' ->
   page_fails (client (accountInput dateRange tok')) = true ->
   getAccountBillings (List.length front + S fuel) client dateRange None
   = match front with
     | [] => Ret None
     | _ :: _ => Ret (Some (List.concat (map account_rows front)))
     end).
Proof.
  split; intros Hc Hfail.
  - rewrite (getServiceBilling_chain _ _ _ _ Hc).
    rewrite (getServiceBilling_fails _ _ Hfail).
    destruct front; reflexivity.
  - rewrite (getAccountBillings_chain _ _ _ _ Hc).
    rewrite (getAccountBillings_fails _ _ Hfail).
    destruct front; reflexivity.
Qed.

End Pagination.

(** The two pages of each test: the rows of the first page, then the rows
    of the second one. *)
Lemma grouped_fetch_concatenates_pages_witness :
  getServiceBilling 2 sample_client sample_range None
  = Ret (Some [service_row {| bg_keys := ["AWS CloudTrail"]; bg_cost := usd "0" |};
               service_row {| bg_keys := ["AWS Config"]; bg_cost := usd "0.012" |};
               service_row {| bg_keys := ["Tax"]; bg_cost := usd "1.39" |}])
  /\
  getAccountBillings 2 sample_client sample_range None
  = Ret (Some [{| account := "111111111111 (Example System 1A)";
                  ab_amount := Some "1.23456"; ab_unit := Some "USD" |};
               {| account := "222222222222 (Example System 2A)";
                  ab_amount := Some "6.8423283327"; ab_unit := Some "USD" |};
               {| account := "333333333333 (Example System 3A)";
                  ab_amount := Some "7.1233988094"; ab_unit := Some "USD" |};
               {| account := "444444444444 (Example System 4A)";
                  ab_amount := Some "0.4724468979"; ab_unit := Some "USD" |}]).
Proof.
  split.
  - refine (proj1 (grouped_fetch_concatenates_pages sample_client sample_range
                     [service_page_1] service_page_2 (Some sample_token) 0 _) _ _).
    + reflexivity.
    + cbn. repeat split; reflexivity.
    + reflexivity.
  - refine (proj2 (grouped_fetch_concatenates_pages sample_client sample_range
                     [account_page_1] account_page_2 (Some sample_token) 0 _) _ _).
    + reflexivity.
    + cbn. repeat split; reflexivity.
    + reflexivity.
Defined.

(** The first page of the SERVICE test followed by a rejected request: the
    rows of the first page. *)
Lemma grouped_fetch_failure_witness :
  getServiceBilling 2 second_page_fails_client sample_range None
  = Ret (Some (service_rows service_page_1)).
Proof.
  refine (proj1 (grouped_fetch_failure second_page_fails_client sample_range
                   [service_page_1] (Some sample_token) 0) _ _).
  - cbn. repeat split; reflexivity.
  - reflexivity.
Defined.

(** C2 as stated fails when the second request is rejected: in either mode
    the fetch returns the rows of the first page, not absent. *)
Lemma grouped_fetch_partial_after_failure :
  page_fails (second_page_fails_client (serviceInput sample_range (Some sample_token)))
  = true /\
  getServiceBilling 2 second_page_fails_client sample_range None
  = Ret (Some [service_row {| bg_keys := ["AWS CloudTrail"]; bg_cost := usd "0" |};
               service_row {| bg_keys := ["AWS Config"]; bg_cost := usd "0.012" |}]) /\
  page_fails (second_page_fails_client (accountInput sample_range (Some sample_token)))
  = true /\
  getAccountBillings 2 second_page_fails_client sample_range None
  = Ret (Some (account_rows account_page_1)).
Proof. repeat split; reflexivity. Qed.

(** ** The join of accounts and attribute entries *)

(** C10. A LINKED_ACCOUNT page gives one row for each pair of a group and
    of an attribute entry of the same account id, group after group: the
    loop over the entries gives, for a group with k matching entries, k
    rows, so an entry that is there twice gives its row twice; and an entry
    without a description gives the label "<id> ()". *)
Theorem account_rows_per_matching_entry (p : Page) :
  accountBillingsOfPage (response_of p) (bucket_of p)
  = Normal (flat_map
              (fun g => map (account_row g) (filter (matches g) (attributes_of p)))
              (pg_groups p))
  /\
  (forall g,
     exists rows,
       for_of (attributes_of p) (push_account (group_of g)) [] = Normal rows /\
       List.length rows = List.length (filter (matches g) (attributes_of p)))
  /\
  (forall g attr,
     matches g attr = true ->
     for_of [attr; attr] (push_account (group_of g)) []
     = Normal [account_row g attr; account_row g attr])
  /\
  (forall g id,
     account (account_row g {| Value := Some id; Attributes := None |})
     = id ++ " ()")
  /\
  (forall g id,
     account (account_row g {| Value := Some id;
                               Attributes := Some {| description := None |} |})
     = id ++ " ()").
Proof.
  split; [apply accountBillingsOfPage_rows |]. split; [| split].
  - intros g. exists (account_rows_of (attributes_of p) g). split.
    + apply (for_of_push_account g (attributes_of p) []).
    + unfold account_rows_of. apply length_map.
  - intros g attr Hm. rewrite for_of_push_account.
    unfold account_rows_of. cbn [filter]. rewrite Hm. reflexivity.
  - split; intros g id; reflexivity.
Qed.

(** An account with two attribute entries, one of them without a
    description, has two rows. *)
Lemma account_rows_per_matching_entry_witness :
  accountBillingsOfPage (response_of twice_described_account_page)
    (bucket_of twice_described_account_page)
  = Normal [{| account := "111111111111 (Example System 1A)";
               ab_amount := Some "1.23456";
               ab_unit := Some "USD" |};
            {| account := "111111111111 ()";
               ab_amount := Some "1.23456";
               ab_unit := Some "USD" |}]
  /\
  for_of [described "111111111111" "Example System 1A";
          described "111111111111" "Example System 1A"]
    (push_account (group_of {| bg_keys := ["111111111111"]; bg_cost := usd "1.23456" |}))
    []
  = Normal [{| account := "111111111111 (Example System 1A)";
               ab_amount := Some "1.23456";
               ab_unit := Some "USD" |};
            {| account := "111111111111 (Example System 1A)";
               ab_amount := Some "1.23456";
               ab_unit := Some "USD" |}].
Proof.
  destruct (account_rows_per_matching_entry twice_described_account_page)
    as (Hrows & _ & Htwice & _).
  split; [exact Hrows |].
  refine (Htwice {| bg_keys := ["111111111111"]; bg_cost := usd "1.23456" |}
            (described "111111111111" "Example System 1A") _).
  reflexivity.
Defined.

(** C3, as amended. On a LINKED_ACCOUNT page, a billing row whose account
    id is the value of an entry of the attribute list is in the output with
    the label "<id> (<description>)"; a row whose id is the value of no
    entry gives no output row. *)
Theorem account_rows_matched_only (p : Page) :
  accountBillingsOfPage (response_of p) (bucket_of p)
  = Normal (flat_map (account_rows_of (attributes_of p)) (pg_groups p))
  /\
  (forall g attr id,
     In attr (attributes_of p) ->
     hd_error (bg_keys g) = Some id -> Value attr = Some id ->
     In {| account := id ++ " (" ++ description_or_empty attr ++ ")";
           ab_amount := Amount (bg_cost g);
           ab_unit := Unit (bg_cost g) |}
        (account_rows_of (attributes_of p) g))
  /\
  (forall g,
     (forall attr, In attr (attributes_of p) -> hd_error (bg_keys g) <> Value attr) ->
     account_rows_of (attributes_of p) g = []).
Proof.
  split; [apply accountBillingsOfPage_rows |]. split.
  - intros g attr id Hattr Hkey Hval. unfold account_rows_of.
    apply in_map_iff. exists attr. split.
    + unfold account_row. rewrite Hval. reflexivity.
    + apply filter_In. split; [exact Hattr |].
      unfold matches. apply strict_eq_true. congruence.
  - intros g Hnone. unfold account_rows_of.
    induction (attributes_of p) as [| attr attrs IH]; [reflexivity |].
    cbn [filter]. destruct (matches g attr) eqn:E.
    + exfalso. apply (Hnone attr (or_introl eq_refl)).
      apply strict_eq_true. exact E.
    + apply IH. intros a Ha. apply Hnone. right. exact Ha.
Qed.

(** The described account of the sample page has its row, the undescribed
    one has none. *)
Lemma account_rows_matched_only_witness :
  In {| account := "111111111111 (Example System 1A)";
        ab_amount := Some "1.23456";
        ab_unit := Some "USD" |}
     (account_rows_of (attributes_of undescribed_account_page)
        {| bg_keys := ["111111111111"]; bg_cost := usd "1.23456" |})
  /\
  account_rows_of (attributes_of undescribed_account_page)
    {| bg_keys := ["999999999999"]; bg_cost := usd "6.8423283327" |} = [].
Proof.
  destruct (account_rows_matched_only undescribed_account_page) as (_ & Hin & Hout).
  split.
  - refine (Hin {| bg_keys := ["111111111111"]; bg_cost := usd "1.23456" |}
              (described "111111111111" "Example System 1A") "111111111111" _ _ _).
    + left. reflexivity.
    + reflexivity.
    + reflexivity.
  - apply Hout. intros attr [<- | []]. discriminate.
Defined.

(** C3 as stated fails on a page with an account that no attribute entry
    describes: the fetch returns the row of the described account only, and
    no row for the account 999999999999. *)
Lemma account_without_attribute_dropped :
  getAccountBillings 1 undescribed_account_client sample_range None
  = Ret (Some [{| account := "111111111111 (Example System 1A)";
                  ab_amount := Some "1.23456";
                  ab_unit := Some "USD" |}])
  /\
  accountBillingsOfPage (response_of undescribed_account_page)
    (bucket_of undescribed_account_page)
  = Normal [{| account := "111111111111 (Example System 1A)";
               ab_amount := Some "1.23456";
               ab_unit := Some "USD" |}].
Proof. split; reflexivity. Qed.

(** ** The steps of the handler *)

Lemma truthy_Some s : truthy (Some s) = true <-> s <> "".
Proof.
  cbn [truthy]. rewrite negb_true_iff. split.
  - intros H ->. discriminate.
  - intros H. apply String.eqb_neq. exact H.
Qed.

Lemma includes_valid_type t :
  includes EventInputType_values t = true <-> valid_type t.
Proof.
  unfold includes, EventInputType_values, valid_type,
    EventInputType_ACCOUNTS, EventInputType_SERVICES.
  cbn [existsb strict_eq]. destruct t as [s |].
  - rewrite !orb_true_iff, !String.eqb_eq.
    split.
    + intros [H | [H | H]]; [left | right | discriminate]; congruence.
    + intros [H | H]; [left | right; left]; congruence.
  - split; [discriminate | intros [H | H]; discriminate].
Qed.

Lemma valid_type_truthy t : valid_type t -> truthy t = true.
Proof. intros [-> | ->]; reflexivity. Qed.

(** On an input type that is not valid the handler throws before any
    step, with one of its three validation errors. *)
Lemma handler_invalid_type fuel w event :
  ~ valid_type (type event) ->
  handler fuel w event
  = Ret ([], Throw "missing environment variable SLACK_SECRET_NAME.")
  \/ handler fuel w event = Ret ([], Throw "missing input variable type")
  \/ handler fuel w event
     = Ret ([], Throw "invalid input variable Type. Valid values are accounts or services.").
Proof.
  intros Hinv. unfold handler.
  destruct (truthy (SLACK_SECRET_NAME w)); cbn [negb]; [| now left].
  destruct (truthy (type event)); cbn [negb]; [| now right; left].
  destruct (includes EventInputType_values (type event)) eqn:E; cbn [negb];
    [| now right; right].
  apply includes_valid_type in E. contradiction.
Qed.

(** The handler after the validation steps: the fetches, then the posts. *)
Lemma handler_validated fuel w event tok chan :
  passes_validation w event tok chan ->
  handler fuel w event =
  let dateRange := getDateRange (Date_now w) in
  match fetchDetailBillings fuel w event dateRange with
  | OutOfFuel => OutOfFuel
  | Ret fields =>
      match context_step w
              (postSlackMessages w tok chan dateRange
                 (getTotalBilling (ceClient w) dateRange) fields) with
      | (posted, Normal _) => Ret (posted, Normal "OK")
      | (posted, Throw e) => Ret (posted, Throw e)
      end
  end.
Proof.
  intros (Hname & Htype & Hsecret & Htok & Hchan).
  unfold handler. rewrite Hname.
  rewrite (valid_type_truthy _ (proj1 (includes_valid_type _) Htype)), Htype.
  cbn [negb]. unfold steps. rewrite Hsecret.
  cbn [context_step optional_chain token secret_channel].
  rewrite (proj2 (truthy_Some tok) Htok), (proj2 (truthy_Some chan) Hchan).
  reflexivity.
Qed.

Lemma postSlackMessages_root w tok chan dateRange totalBilling fields result :
  slack w tok (rootMessage chan dateRange totalBilling) = Resolved result ->
  postSlackMessages w tok chan dateRange totalBilling fields =
  if ok result then
    match slack w tok (detailMessage chan (ts result) fields) with
    | Resolved _ =>
        ([rootMessage chan dateRange totalBilling;
          detailMessage chan (ts result) fields], Normal tt)
    | Rejected reason =>
        ([rootMessage chan dateRange totalBilling;
          detailMessage chan (ts result) fields], Throw reason)
    end
  else ([rootMessage chan dateRange totalBilling], Normal tt).
Proof. intros H. unfold postSlackMessages. rewrite H. reflexivity. Qed.

Lemma postSlackMessages_resolves w tok chan dateRange totalBilling fields :
  slack_resolves w ->
  exists rest,
    postSlackMessages w tok chan dateRange totalBilling fields
    = (rootMessage chan dateRange totalBilling :: rest, Normal tt).
Proof.
  intros Hs.
  destruct (Hs tok (rootMessage chan dateRange totalBilling)) as [result Hr].
  rewrite (postSlackMessages_root _ _ _ _ _ _ _ Hr).
  destruct (ok result).
  - destruct (Hs tok (detailMessage chan (ts result) fields)) as [r2 Hd].
    rewrite Hd. eexists. reflexivity.
  - eexists. reflexivity.
Qed.

Lemma getTotalBilling_fails client dateRange :
  page_fails (client (totalInput dateRange)) = true ->
  getTotalBilling client dateRange = None.
Proof.
  unfold getTotalBilling, page_fails.
  destruct (client (totalInput dateRange)) as [data | reason]; [| reflexivity].
  destruct (ResultsByTime data) as [[| r0 [| r1 rs]] |];
    try reflexivity; discriminate.
Qed.


Lemma fetchDetailBillings_fails fuel w event dateRange :
  valid_type (type event) ->
  page_fails (ceClient w (detailInput event dateRange)) = true ->
  fetchDetailBillings (S fuel) w event dateRange = Ret None.
Proof.
  unfold fetchDetailBillings, detailInput.
  intros [-> | ->];
    cbn [strict_eq EventInputType_ACCOUNTS EventInputType_SERVICES
         String.eqb Ascii.eqb Bool.eqb andb].
  - intros H. rewrite (getAccountBillings_fails _ _ _ _ H). reflexivity.
  - intros H. rewrite (getServiceBilling_fails _ _ _ _ H). reflexivity.
Qed.

(** A detail fetch that fails after the pages [front] returns the fields
    of the rows of [front]. *)
Lemma fetchDetailBillings_fails_after fuel w event dateRange front tok' :
  valid_type (type event) ->
  front <> [] ->
  chain (ceClient w) (detailPageInput event dateRange) None front tok' ->
  page_fails (ceClient w (detailPageInput event dateRange tok')) = true ->
  fetchDetailBillings (List.length front + S fuel) w event dateRange
  = Ret (Some (detail_fields event front)).
Proof.
  unfold fetchDetailBillings, detailPageInput, detail_fields.
  intros [-> | ->] Hne;
    cbn [strict_eq EventInputType_ACCOUNTS EventInputType_SERVICES
         String.eqb Ascii.eqb Bool.eqb andb]; intros Hc Hfail.
  - rewrite (getAccountBillings_chain _ _ _ _ _ _ Hc).
    rewrite (getAccountBillings_fails _ _ _ _ Hfail).
    destruct front; [congruence | reflexivity].
  - rewrite (getServiceBilling_chain _ _ _ _ _ _ Hc).
    rewrite (getServiceBilling_fails _ _ _ _ Hfail).
    destruct front; [congruence | reflexivity].
Qed.

(** A validated run whose detail fetch returns posts the root message
    first. *)
Lemma handler_posts_root fuel w event tok chan fields :
  passes_validation w event tok chan ->
  fetchDetailBillings fuel w event (getDateRange (Date_now w)) = Ret fields ->
  exists rest completion,
    handler fuel w event
    = Ret (rootMessage chan (getDateRange (Date_now w))
             (getTotalBilling (ceClient w) (getDateRange (Date_now w))) :: rest,
           completion).
Proof.
  intros Hv Hf. rewrite (handler_validated _ _ _ _ _ Hv). cbv zeta. rewrite Hf.
  unfold postSlackMessages.
  destruct (slack w tok _) as [result | reason].
  - destruct (ok result).
    + destruct (slack w tok _); eexists; eexists; reflexivity.
    + eexists; eexists; reflexivity.
  - eexists; eexists; reflexivity.
Qed.

Lemma sample_world_passes_validation client root_ok :
  passes_validation (sample_world client root_ok) services_event
    "xxxx-xxxxxxxxx-xxxx" "example-channel".
Proof. repeat split; discriminate. Qed.

Lemma sample_world_slack_resolves client root_ok :
  slack_resolves (sample_world client root_ok).
Proof. intros tok message. eexists. reflexivity. Qed.

Lemma sample_world_healthy client :
  (forall event,
     fetchDetailBillings 2 (sample_world client true) event
       (getDateRange (Date_now (sample_world client true))) <> OutOfFuel) ->
  healthy 2 (sample_world client true).
Proof.
  intros Hterm. split; [reflexivity |]. split.
  - exists "xxxx-xxxxxxxxx-xxxx", "example-channel". repeat split; discriminate.
  - split; [apply sample_world_slack_resolves | exact Hterm].
Qed.

Lemma rejecting_client_returns event dateRange :
  fetchDetailBillings 2 (sample_world rejecting_client true) event dateRange
  <> OutOfFuel.
Proof.
  unfold fetchDetailBillings.
  destruct (strict_eq (type event) (Some EventInputType_ACCOUNTS)); [discriminate |].
  destruct (strict_eq (type event) (Some EventInputType_SERVICES)); discriminate.
Qed.

(** ** Runs of the handler *)

(** C5. In a run that passes the validation steps and whose posts to the
    chat are not rejected: a total fetch that fails (rejected, or not
    exactly one result bucket) makes the total absent, a detail fetch whose
    first page fails makes the detail absent, and then the handler posts
    the root message and, under it, a detail message without fields, and
    returns 'OK'; a detail fetch that fails on a later page does not make
    the detail absent: the detail holds the fields of the rows of the pages
    before the failure, which the handler posts under the root message
    before it returns 'OK'; whatever the detail fetch returns, the handler
    goes through the notify step, the root message first, and returns
    'OK'. *)
Theorem billing_failure_does_not_fail_run fuel w event tok chan :
  passes_validation w event tok chan ->
  slack_resolves w ->
  let dateRange := getDateRange (Date_now w) in
  let totalBilling := getTotalBilling (ceClient w) dateRange in
  let root := rootMessage chan dateRange totalBilling in
  (page_fails (ceClient w (totalInput dateRange)) = true -> totalBilling = None)
  /\
  (page_fails (ceClient w (detailInput event dateRange)) = true ->
   fetchDetailBillings (S fuel) w event dateRange = Ret None
   /\
   forall result,
     slack w tok root = Resolved result -> ok result = true ->
     handler (S fuel) w event
     = Ret ([root; detailMessage chan (ts result) None], Normal "OK"))
  /\
  (forall front tok',
     front <> [] ->
     chain (ceClient w) (detailPageInput event dateRange) None front tok' ->
     page_fails (ceClient w (detailPageInput event dateRange tok')) = true ->
     fetchDetailBillings (List.length front + S fuel) w event dateRange
     = Ret (Some (detail_fields event front))
     /\
     forall result,
       slack w tok root = Resolved result -> ok result = true ->
       handler (List.length front + S fuel) w event
       = Ret ([root; detailMessage chan (ts result) (Some (detail_fields event front))],
              Normal "OK"))
  /\
  (forall fields,
     fetchDetailBillings fuel w event dateRange = Ret fields ->
     exists rest, handler fuel w event = Ret (root :: rest, Normal "OK")).
Proof.
  intros Hv Hs dateRange totalBilling root.
  assert (Hvalid : valid_type (type event)).
  { apply includes_valid_type. apply Hv. }
  assert (Hposts : forall fuel' fields result,
            fetchDetailBillings fuel' w event dateRange = Ret fields ->
            slack w tok root = Resolved result -> ok result = true ->
            handler fuel' w event
            = Ret ([root; detailMessage chan (ts result) fields], Normal "OK")).
  { intros fuel' fields result Hf Hroot Hok.
    rewrite (handler_validated _ _ _ _ _ Hv). cbv zeta.
    fold dateRange. rewrite Hf. fold totalBilling.
    rewrite (postSlackMessages_root _ _ _ _ _ _ _ Hroot), Hok.
    destruct (Hs tok (detailMessage chan (ts result) fields)) as [r2 ->].
    reflexivity. }
  split; [| split; [| split]].
  - apply getTotalBilling_fails.
  - intros Hfail.
    assert (Hf : fetchDetailBillings (S fuel) w event dateRange = Ret None).
    { apply fetchDetailBillings_fails; assumption. }
    split; [exact Hf |]. intros result. apply Hposts. exact Hf.
  - intros front tok' Hne Hc Hfail.
    assert (Hf : fetchDetailBillings (List.length front + S fuel) w event dateRange
                 = Ret (Some (detail_fields event front))).
    { apply (fetchDetailBillings_fails_after fuel w event dateRange front tok');
        assumption. }
    split; [exact Hf |]. intros result. apply Hposts. exact Hf.
  - intros fields Hf. rewrite (handler_validated _ _ _ _ _ Hv).
    cbv zeta. fold dateRange. rewrite Hf. fold totalBilling.
    destruct (postSlackMessages_resolves w tok chan dateRange totalBilling fields Hs)
      as [rest ->].
    exists rest. reflexivity.
Qed.

(** The test in which every billing request is rejected: total and detail
    are absent, both messages are posted and the handler returns 'OK'. And
    an 'accounts' run whose second page is rejected: the detail holds the
    three accounts of the first page. *)
Lemma billing_failure_does_not_fail_run_witness :
  (getTotalBilling rejecting_client sample_range = None /\
   fetchDetailBillings 1 (sample_world rejecting_client true) services_event sample_range
   = Ret None /\
   handler 1 (sample_world rejecting_client true) services_event
   = Ret ([rootMessage "example-channel" sample_range None;
           detailMessage "example-channel" (Some "1677117722.000100") None],
          Normal "OK"))
  /\
  fetchDetailBillings 2 (sample_world second_page_fails_client true) accounts_event
    sample_range
  = Ret (Some [{| mf_title := Some "111111111111 (Example System 1A)";
                  mf_value := "1.23456 USD" |};
               {| mf_title := Some "222222222222 (Example System 2A)";
                  mf_value := "6.8423283327 USD" |};
               {| mf_title := Some "333333333333 (Example System 3A)";
                  mf_value := "7.1233988094 USD" |}]).
Proof.
  split.
  - destruct (billing_failure_does_not_fail_run 0 (sample_world rejecting_client true)
                services_event "xxxx-xxxxxxxxx-xxxx" "example-channel"
                (sample_world_passes_validation rejecting_client true)
                (sample_world_slack_resolves rejecting_client true))
      as (Htotal & Hdetail & _).
    split; [exact (Htotal eq_refl) |].
    destruct (Hdetail eq_refl) as (Hfields & Hrun).
    split; [exact Hfields |].
    exact (Hrun {| ok := true; ts := Some "1677117722.000100" |} eq_refl eq_refl).
  - assert (Hv : passes_validation (sample_world second_page_fails_client true)
                   accounts_event "xxxx-xxxxxxxxx-xxxx" "example-channel")
      by (repeat split; discriminate).
    destruct (billing_failure_does_not_fail_run 0
                (sample_world second_page_fails_client true)
                accounts_event "xxxx-xxxxxxxxx-xxxx" "example-channel" Hv
                (sample_world_slack_resolves second_page_fails_client true))
      as (_ & _ & Hlater & _).
    refine (proj1 (Hlater [account_page_1] (Some sample_token) _ _ eq_refl)).
    + discriminate.
    + cbn. repeat split; reflexivity.
Defined.

(** The original wording of C5 does not hold of a failure on a later page
    of the detail fetch. In the 'services' run whose second page request is
    rejected, the detail is not absent: it holds the two services of the
    first page, and the handler posts them and returns 'OK'. *)
Lemma detail_kept_after_later_page_failure :
  page_fails (second_page_fails_client (serviceInput sample_range (Some sample_token)))
  = true
  /\
  fetchDetailBillings 2 (sample_world second_page_fails_client true) services_event
    sample_range
  = Ret (Some [{| mf_title := Some "AWS CloudTrail"; mf_value := "0 USD" |};
               {| mf_title := Some "AWS Config"; mf_value := "0.012 USD" |}])
  /\
  handler 2 (sample_world second_page_fails_client true) services_event
  = Ret ([rootMessage "example-channel" sample_range
            (Some {| tb_unit := Some "USD"; tb_amount := Some "1.23456" |});
          detailMessage "example-channel" (Some "1677117722.000100")
            (Some [{| mf_title := Some "AWS CloudTrail"; mf_value := "0 USD" |};
                   {| mf_title := Some "AWS Config"; mf_value := "0.012 USD" |}])],
         Normal "OK").
Proof.
  split; [reflexivity |]. split; [reflexivity |].
  vm_compute. reflexivity.
Qed.

(** C6. In the notify step of a validated run whose root post resolves to
    [result]: the messages posted are the root and, if and only if [result]
    reports ok, the detail threaded under it; when it does not report ok,
    the step completes without an error and the handler returns 'OK'. *)
Theorem detail_posted_iff_root_ok fuel w event tok chan fields result :
  passes_validation w event tok chan ->
  let dateRange := getDateRange (Date_now w) in
  let totalBilling := getTotalBilling (ceClient w) dateRange in
  let root := rootMessage chan dateRange totalBilling in
  let detail := detailMessage chan (ts result) fields in
  fetchDetailBillings fuel w event dateRange = Ret fields ->
  slack w tok root = Resolved result ->
  fst (postSlackMessages w tok chan dateRange totalBilling fields)
  = (if ok result then [root; detail] else [root])
  /\
  (In detail (fst (postSlackMessages w tok chan dateRange totalBilling fields))
   <-> ok result = true)
  /\
  (ok result = false ->
   postSlackMessages w tok chan dateRange totalBilling fields = ([root], Normal tt)
   /\ handler fuel w event = Ret ([root], Normal "OK")).
Proof.
  intros Hv dateRange totalBilling root detail Hf Hr.
  pose proof (postSlackMessages_root w tok chan dateRange totalBilling fields result Hr)
    as Hp.
  fold root detail in Hp.
  assert (Hfst : fst (postSlackMessages w tok chan dateRange totalBilling fields)
                 = (if ok result then [root; detail] else [root])).
  { rewrite Hp. destruct (ok result); [| reflexivity].
    destruct (slack w tok detail); reflexivity. }
  split; [exact Hfst |]. split.
  - rewrite Hfst. destruct (ok result).
    + split; [reflexivity | intros _; right; left; reflexivity].
    + split; [| discriminate].
      intros [H | []]. exfalso.
      apply (f_equal (fun m => map color (attachments m))) in H.
      discriminate H.
  - intros Hok. rewrite Hok in Hp. split; [exact Hp |].
    rewrite (handler_validated _ _ _ _ _ Hv). cbv zeta.
    fold dateRange. rewrite Hf. fold totalBilling. rewrite Hp. reflexivity.
Qed.

(** A root post that reports [ok: false]: the root message only, and 'OK'. *)
Lemma detail_posted_iff_root_ok_witness :
  handler 2 (sample_world sample_client false) services_event
  = Ret ([rootMessage "example-channel" sample_range
            (Some {| tb_unit := Some "USD"; tb_amount := Some "1.23456" |})],
         Normal "OK").
Proof.
  refine (proj2 (proj2 (proj2
    (detail_posted_iff_root_ok 2 (sample_world sample_client false) services_event
       "xxxx-xxxxxxxxx-xxxx" "example-channel"
       (Some (map (fun value =>
                     {| mf_title := service value;
                        mf_value := tpl (sb_amount value) ++ " " ++ tpl (sb_unit value) |})
                (service_rows service_page_1 ++ service_rows service_page_2)%list))
       {| ok := false; ts := Some "1677117722.000100" |}
       (sample_world_passes_validation sample_client false) _ _)) _)).
  - reflexivity.
  - reflexivity.
  - reflexivity.
Defined.

(** C7. Whatever the rest of the world, an input type other than the exact
    strings "accounts" and "services" (the empty string and an absent type
    among them) makes the handler throw, with one of the two errors of the
    input when the secret name is configured; the two strings pass the
    checks of the input, the handler going on to its steps; and when
    everything but the input is in order, the run fails if and only if the
    type is not one of the two strings. *)
Theorem run_fails_iff_type_invalid fuel w event :
  (~ valid_type (type event) -> failed (handler fuel w event))
  /\
  (truthy (SLACK_SECRET_NAME w) = true ->
   ~ valid_type (type event) ->
   handler fuel w event = Ret ([], Throw "missing input variable type")
   \/ handler fuel w event
      = Ret ([], Throw "invalid input variable Type. Valid values are accounts or services."))
  /\
  (truthy (SLACK_SECRET_NAME w) = true ->
   valid_type (type event) ->
   handler fuel w event = steps fuel w event (as_string (SLACK_SECRET_NAME w)))
  /\
  (healthy fuel w ->
   (failed (handler fuel w event) <-> ~ valid_type (type event))).
Proof.
  split; [| split; [| split]].
  - intros Hinv.
    destruct (handler_invalid_type fuel w event Hinv) as [H | [H | H]];
      rewrite H; eexists; eexists; reflexivity.
  - intros Hname Hinv.
    destruct (handler_invalid_type fuel w event Hinv) as [H | H]; [| exact H].
    exfalso. revert H. unfold handler. rewrite Hname. cbn [negb].
    destruct (truthy (type event)); cbn [negb]; [| discriminate].
    destruct (includes EventInputType_values (type event)) eqn:E; cbn [negb];
      [| discriminate].
    apply includes_valid_type in E. contradiction.
  - intros Hname Hvalid. unfold handler. rewrite Hname.
    rewrite (valid_type_truthy _ Hvalid).
    rewrite (proj2 (includes_valid_type _) Hvalid). reflexivity.
  - intros (Hname & (tok & chan & Hsecret & Htok & Hchan) & Hs & Hterm).
    split.
    + intros (posted & message & Hfail) Hvalid.
      assert (Hv : passes_validation w event tok chan).
      { repeat split; try assumption. now apply includes_valid_type. }
      rewrite (handler_validated _ _ _ _ _ Hv) in Hfail. cbv zeta in Hfail.
      specialize (Hterm event).
      destruct (fetchDetailBillings fuel w event (getDateRange (Date_now w)))
        as [| fields]; [contradiction |].
      destruct (postSlackMessages_resolves w tok chan (getDateRange (Date_now w))
                  (getTotalBilling (ceClient w) (getDateRange (Date_now w))) fields Hs)
        as [rest Hp].
      rewrite Hp in Hfail. discriminate Hfail.
    + intros Hinv.
      destruct (handler_invalid_type fuel w event Hinv) as [H | [H | H]];
        rewrite H; eexists; eexists; reflexivity.
Qed.

(** The types 'Miss' and '' of the tests fail the run. *)
Lemma run_fails_iff_type_invalid_witness :
  failed (handler 2 (sample_world rejecting_client true) {| type := Some "Miss" |})
  /\
  (failed (handler 2 (sample_world rejecting_client true) {| type := Some "" |})
   <-> ~ valid_type (Some "")).
Proof.
  split.
  - refine (proj1 (run_fails_iff_type_invalid 2 (sample_world rejecting_client true)
                     {| type := Some "Miss" |}) _).
    intros [H | H]; discriminate H.
  - refine (proj2 (proj2 (proj2 (run_fails_iff_type_invalid 2
                                   (sample_world rejecting_client true)
                                   {| type := Some "" |}))) _).
    apply sample_world_healthy. intros event. apply rejecting_client_returns.
Defined.

(** C8. A run without a configured secret name throws, with an error
    message; a run whose secret resolves without a token or without a
    channel throws the error "Slack secret must contain token and
    channel.", which names both fields. In both cases nothing is posted and
    the handler does not return 'OK'. *)
Theorem missing_secret_fails fuel w event :
  (truthy (SLACK_SECRET_NAME w) = false ->
   handler fuel w event
   = Ret ([], Throw "missing environment variable SLACK_SECRET_NAME."))
  /\
  (forall slackSecretValue,
     truthy (SLACK_SECRET_NAME w) = true ->
     valid_type (type event) ->
     getSecretValue w (as_string (SLACK_SECRET_NAME w)) = Resolved slackSecretValue ->
     truthy (optional_chain slackSecretValue token) = false
     \/ truthy (optional_chain slackSecretValue secret_channel) = false ->
     handler fuel w event
     = Ret ([], Throw "Slack secret must contain token and channel."))
  /\
  contains "token" "Slack secret must contain token and channel." = true
  /\
  contains "channel" "Slack secret must contain token and channel." = true.
Proof.
  split; [| split; [| split; reflexivity]].
  - intros Hname. unfold handler. rewrite Hname. reflexivity.
  - intros sv Hname Hvalid Hsecret Hlack. unfold handler. rewrite Hname.
    rewrite (valid_type_truthy _ Hvalid).
    rewrite (proj2 (includes_valid_type _) Hvalid). cbn [negb].
    unfold steps. rewrite Hsecret. cbn [context_step].
    destruct Hlack as [H | H]; rewrite H; cbn [negb orb];
      [| rewrite orb_true_r]; reflexivity.
Qed.

(** The tests without a secret name and with a secret without a token. *)
Lemma missing_secret_fails_witness :
  handler 1 {| SLACK_SECRET_NAME := None;
               getSecretValue := fun _ => Resolved (Some sample_secret);
               Date_now := JsDate.make 2023 1 23;
               ceClient := sample_client;
               slack := fun _ _ => Resolved {| ok := true; ts := None |};
               stepRetries := 5;
               stepError := fun reason => reason |}
    services_event
  = Ret ([], Throw "missing environment variable SLACK_SECRET_NAME.")
  /\
  handler 1 {| SLACK_SECRET_NAME := Some "example/slack/webhook";
               getSecretValue :=
                 fun _ => Resolved (Some {| token := None;
                                            secret_channel := Some "example-channel" |});
               Date_now := JsDate.make 2023 1 23;
               ceClient := sample_client;
               slack := fun _ _ => Resolved {| ok := true; ts := None |};
               stepRetries := 5;
               stepError := fun reason => reason |}
    services_event
  = Ret ([], Throw "Slack secret must contain token and channel.").
Proof.
  split.
  - refine (proj1 (missing_secret_fails 1 _ services_event) _). reflexivity.
  - refine (proj1 (proj2 (missing_secret_fails 1 _ services_event))
              (Some {| token := None; secret_channel := Some "example-channel" |})
              _ _ _ _).
    + reflexivity.
    + right. reflexivity.
    + reflexivity.
    + left. reflexivity.
Defined.



(** * Further properties

    Properties of the same functions beyond the ones above, and of the
    input that the construct schedules. *)

(** ** The format and the days of the period *)

Open Scope Z_scope.

Lemma DateFromDay_range d : 1 <= DateFromDay d <= 31.
Proof.
  destruct (MakeDay_of_fields d) as [H _].
  pose proof (last_day_of_month_range (YearFromDay d) (MonthFromDay d)). lia.
Qed.

Lemma string_length_append (s1 s2 : string) :
  String.length (s1 ++ s2) = (String.length s1 + String.length s2)%nat.
Proof.
  induction s1 as [| c s1 IH]; cbn [append String.length]; [reflexivity |].
  now rewrite IH.
Qed.

(** X1. Whatever the date, [dateFormatString] writes the year as
    [String] does, then a hyphen, the number of the month on two digits, a
    hyphen and the day on two digits: the month and the day are padded,
    the year is not, and the result is six characters longer than the
    year. *)
Theorem dateFormatString_shape (date : JsDate.t) :
  dateFormatString date
  = number_to_string (getFullYear date) ++ "-"
    ++ String (decimal_digit ((getMonth date + 1) / 10))
         (String (decimal_digit (getMonth date + 1)) "")
    ++ "-"
    ++ String (decimal_digit (getDate date / 10))
         (String (decimal_digit (getDate date)) "")
  /\
  String.length (dateFormatString date)
  = (String.length (number_to_string (getFullYear date)) + 6)%nat
  /\
  (1 <= getMonth date + 1 <= 12 /\ 1 <= getDate date <= 31).
Proof.
  pose proof (MonthFromDay_range (localDay date)) as Hm.
  pose proof (DateFromDay_range (localDay date)) as Hd.
  assert (E : dateFormatString date
              = number_to_string (getFullYear date) ++ "-"
                ++ String (decimal_digit ((getMonth date + 1) / 10))
                     (String (decimal_digit (getMonth date + 1)) "")
                ++ "-"
                ++ String (decimal_digit (getDate date / 10))
                     (String (decimal_digit (getDate date)) "")).
  { unfold dateFormatString.
    rewrite (two_digits (getMonth date + 1)), (two_digits (getDate date));
      unfold getMonth, getDate; try lia. reflexivity. }
  split; [exact E |]. split.
  - rewrite E. rewrite string_length_append. cbn [String.length append]. lia.
  - unfold getMonth, getDate. lia.
Qed.

Lemma make_outside_two_digits y m d :
  y < 0 \/ 100 <= y -> make y m d = ofDay (MakeDay y m d).
Proof.
  intros Hy. unfold make.
  destruct (Z.leb_spec 0 y); destruct (Z.leb_spec y 99); cbn [andb];
    try reflexivity; lia.
Qed.

(** The two days of the period. *)
Lemma getDateRange_days (now : JsDate.t) :
  getFullYear now < 0 \/ 100 <= getFullYear now ->
  getDateRange now
  = {| start := dateFormatString (first_day_of_month (yesterday now));
       end_ := dateFormatString (yesterday now) |}.
Proof.
  destruct now as [d]. unfold getFullYear, yesterday, first_day_of_month.
  cbn [localDay]. intros Hy.
  unfold getFullYear, getMonth. cbn [localDay].
  destruct (MakeDay_of_fields d) as [HN Hd].
  pose proof (MonthFromDay_range d) as Hm.
  unfold getDateRange, getFullYear, getMonth, getDate. cbn [localDay].
  set (y := YearFromDay d) in *. set (m := MonthFromDay d) in *.
  set (N := DateFromDay d) in *.
  destruct (Z.eqb_spec N 1) as [HN1 | HN1].
  - pose proof (MakeDay_last_day_of_previous_month y m Hm) as Hlast.
    pose proof (previous_month_range y m Hm) as Hpm.
    set (py := fst (previous_month y m)) in *.
    set (pm := snd (previous_month y m)) in *.
    pose proof (last_day_of_month_range py pm) as Hlp.
    assert (Hyest : MakeDay py pm (last_day_of_month py pm) = d - 1).
    { rewrite Hlast. rewrite HN1 in Hd. unfold MakeDay in Hd |- *. lia. }
    destruct (fields_of_MakeDay py pm (last_day_of_month py pm) Hpm ltac:(lia))
      as (Ey & Em & _).
    rewrite Hyest in Ey, Em. rewrite Ey, Em.
    rewrite !make_outside_two_digits by assumption.
    rewrite (MakeDay_previous_month y m 1 Hm). fold py pm.
    rewrite <- Hlast, Hyest. reflexivity.
  - assert (Hyest : MakeDay y m (N - 1) = d - 1).
    { unfold MakeDay in Hd |- *. lia. }
    destruct (fields_of_MakeDay y m (N - 1) Hm ltac:(lia)) as (Ey & Em & _).
    rewrite Hyest in Ey, Em. rewrite Ey, Em.
    rewrite !make_outside_two_digits by assumption.
    rewrite Hyest. reflexivity.
Qed.

(** X2. For a year outside 0..99 (which [new Date] reads as 1900 + year),
    the period that [getDateRange] returns ends the day before [now] and
    starts on the first day of the month of that day, on the first of a
    month as on the other days; it never holds [now] itself, and it spans
    31 days at most. *)
Theorem getDateRange_ends_yesterday (now : JsDate.t) :
  getFullYear now < 0 \/ 100 <= getFullYear now ->
  getDateRange now
  = {| start := dateFormatString (first_day_of_month (yesterday now));
       end_ := dateFormatString (yesterday now) |}
  /\
  localDay (first_day_of_month (yesterday now)) <= localDay (yesterday now)
  /\
  localDay (yesterday now) <= localDay (first_day_of_month (yesterday now)) + 30.
Proof.
  intros Hy. split; [exact (getDateRange_days now Hy) |].
  destruct now as [d]. unfold yesterday, first_day_of_month, getFullYear, getMonth.
  cbn [localDay].
  destruct (MakeDay_of_fields (d - 1)) as [Hk Hd].
  pose proof (last_day_of_month_range (YearFromDay (d - 1)) (MonthFromDay (d - 1)))
    as Hl.
  unfold MakeDay in Hd |- *. split; lia.
Qed.

(** On 2024-03-01 the period is February 2024, up to the leap day. *)
Lemma getDateRange_ends_yesterday_witness :
  getDateRange (JsDate.make 2024 2 1)
  = {| start := "2024-02-01"; end_ := "2024-02-29" |}
  /\ localDay (yesterday (JsDate.make 2024 2 1)) = 19782
  /\ localDay (first_day_of_month (yesterday (JsDate.make 2024 2 1))) = 19754.
Proof.
  destruct (getDateRange_ends_yesterday (JsDate.make 2024 2 1)) as (H & _ & _).
  - right. vm_compute. discriminate.
  - split; [exact H |]. split; reflexivity.
Defined.

Lemma day_digits_differ k :
  2 <= k <= 31 ->
  String (decimal_digit (k / 10)) (String (decimal_digit k) "") <> "01".
Proof.
  intros Hk H.
  assert (E : (String (decimal_digit (k / 10)) (String (decimal_digit k) "")
               =? "01")%string = false).
  { apply negb_true_iff.
    apply (all_from_spec
             (fun k => negb (String (decimal_digit (k / 10))
                               (String (decimal_digit k) "") =? "01")%string)
             (Z.to_nat 30) 2).
    - vm_compute. reflexivity.
    - lia. }
  rewrite H in E. discriminate E.
Qed.

(** X3. With a year of four digits, the two dates of the period lie in the
    same month (they share their first eight characters) and the start is
    its day 01; the start and the end are the same date exactly when [now]
    is the second day of a month. *)
Theorem getDateRange_single_day_iff (now : JsDate.t) :
  1000 <= getFullYear (yesterday now) <= 9999 ->
  (start (getDateRange now) = end_ (getDateRange now) <-> getDate now = 2)
  /\
  substring 0 8 (start (getDateRange now)) = substring 0 8 (end_ (getDateRange now))
  /\
  substring 8 2 (start (getDateRange now)) = "01".
Proof.
  intros Hyear.
  assert (Hy : getFullYear now < 0 \/ 100 <= getFullYear now).
  { right. destruct now as [d]. unfold getFullYear, yesterday in *.
    cbn [localDay] in *.
    pose proof (YearFromDay_bounds d) as Hb.
    pose proof (YearFromDay_bounds (d - 1)) as Hb'.
    destruct (Z.le_gt_cases 100 (YearFromDay d)) as [H | H]; [exact H |].
    exfalso.
    assert (Hmono : forall a b, a <= b -> DayFromYear a <= DayFromYear b).
    { intros a b Hab. unfold DayFromYear. Z.div_mod_to_equations. lia. }
    pose proof (Hmono (YearFromDay d + 1) 1000 ltac:(lia)).
    pose proof (Hmono 1000 (YearFromDay (d - 1)) ltac:(lia)). lia. }
  rewrite (getDateRange_days now Hy). cbn [start end_].
  destruct now as [d]. unfold yesterday, first_day_of_month, getFullYear, getMonth,
    getDate in *. cbn [localDay] in *.
  destruct (MakeDay_of_fields (d - 1)) as [Hk Hd1].
  pose proof (MonthFromDay_range (d - 1)) as Hm.
  set (y := YearFromDay (d - 1)) in *. set (m := MonthFromDay (d - 1)) in *.
  set (k := DateFromDay (d - 1)) in *.
  pose proof (last_day_of_month_range y m) as Hl.
  assert (Hyd : ofDay (d - 1) = ofDay (MakeDay y m k)) by (now rewrite Hd1).
  rewrite Hyd.
  rewrite !dateFormatString_iso by lia.
  split; [| split; reflexivity].
  split.
  - intros H. unfold iso_date in H.
    destruct (Z.eq_dec k 1) as [Hk1 | Hk1].
    + assert (Hd2 : d = MakeDay y m 2).
      { rewrite Hk1 in Hd1. unfold MakeDay in Hd1 |- *. lia. }
      rewrite Hd2. apply fields_of_MakeDay; lia.
    + exfalso. apply (day_digits_differ k ltac:(lia)).
      apply (f_equal (substring 8 2)) in H. cbn [substring] in H.
      symmetry. exact H.
  - intros HN.
    destruct (MakeDay_of_fields d) as [_ Hd]. rewrite HN in Hd.
    pose proof (MonthFromDay_range d) as Hm'.
    pose proof (last_day_of_month_range (YearFromDay d) (MonthFromDay d)) as Hl'.
    assert (Hyest : MakeDay (YearFromDay d) (MonthFromDay d) 1 = d - 1).
    { unfold MakeDay in Hd |- *. lia. }
    destruct (fields_of_MakeDay (YearFromDay d) (MonthFromDay d) 1 Hm' ltac:(lia))
      as (_ & _ & Ek).
    rewrite Hyest in Ek. fold k in Ek. rewrite Ek. reflexivity.
Qed.

(** On 2023-02-02 the period is the single day 2023-02-01. *)
Lemma getDateRange_single_day_iff_witness :
  start (getDateRange (JsDate.make 2023 1 2))
  = end_ (getDateRange (JsDate.make 2023 1 2))
  /\ getDateRange (JsDate.make 2023 1 2)
     = {| start := "2023-02-01"; end_ := "2023-02-01" |}.
Proof.
  split.
  - refine (proj2 (proj1 (getDateRange_single_day_iff (JsDate.make 2023 1 2) _)) _).
    + vm_compute. split; discriminate.
    + vm_compute. reflexivity.
  - reflexivity.
Defined.

Close Scope Z_scope.

(** ** Edge cases of the billing fetches *)

(** X4. [getTotalBilling] returns a total exactly when the request resolves
    with one result bucket that holds [Total.AmortizedCost], and then the
    total is the unit and the amount of that metric; a rejected request, a
    bucket count other than one, and a bucket without [Total] or without
    the metric (a [TypeError] in the callback, caught) all give
    [undefined]. *)
Theorem getTotalBilling_defined_iff client dateRange billing :
  getTotalBilling client dateRange = Some billing
  <->
  exists data r0 total cost,
    client (totalInput dateRange) = Resolved data /\
    ResultsByTime data = Some [r0] /\
    Total r0 = Some total /\
    AmortizedCost total = Some cost /\
    billing = {| tb_unit := Unit cost; tb_amount := Amount cost |}.
Proof.
  unfold getTotalBilling. split.
  - destruct (client (totalInput dateRange)) as [data | reason] eqn:Hc;
      [| discriminate].
    destruct (ResultsByTime data) as [[| r0 [| r1 rs]] |] eqn:Hr; try discriminate.
    destruct (Total r0) as [total |] eqn:Et; cbn [deref bind]; [| discriminate].
    destruct (AmortizedCost total) as [cost |] eqn:Ec; cbn [deref bind];
      [| discriminate].
    intros H. injection H as <-.
    exists data, r0, total, cost. repeat split; try assumption; reflexivity.
  - intros (data & r0 & total & cost & Hc & Hr & Ht & Ha & ->).
    rewrite Hc, Hr, Ht. cbn [deref bind]. rewrite Ha. reflexivity.
Qed.

Lemma group_of_eta g keys cost :
  Keys g = Some keys -> Metrics g = Some {| AmortizedCost := Some cost |} ->
  g = group_of {| bg_keys := keys; bg_cost := cost |}.
Proof.
  destruct g as [k m]. cbn. intros -> ->. reflexivity.
Qed.

Lemma push_service_normal billings item rows :
  push_service billings item = Normal rows ->
  exists g, item = group_of g /\ rows = (billings ++ [service_row g])%list.
Proof.
  unfold push_service.
  destruct (Keys item) as [keys |] eqn:Ek; cbn [deref bind]; [| discriminate].
  destruct (Metrics item) as [[[cost |]] |] eqn:Em; cbn [deref bind AmortizedCost];
    try discriminate.
  intros H. injection H as <-.
  exists {| bg_keys := keys; bg_cost := cost |}. split; [| reflexivity].
  apply group_of_eta; assumption.
Qed.

Lemma for_of_push_service_normal groups :
  forall acc rows,
  for_of groups push_service acc = Normal rows ->
  exists gs, groups = map group_of gs /\ rows = (acc ++ map service_row gs)%list.
Proof.
  induction groups as [| item groups IH]; intros acc rows; cbn [for_of].
  - intros H. injection H as <-. exists []. now rewrite app_nil_r.
  - destruct (push_service acc item) as [acc' | e] eqn:Ep; cbn [bind];
      [| discriminate].
    intros H. apply IH in H as (gs & -> & ->).
    apply push_service_normal in Ep as (g & -> & ->).
    exists (g :: gs). cbn [map]. now rewrite <- app_assoc.
Qed.

(** A group without keys or without its metric stops the loop. *)
Lemma for_of_push_service_throws groups item :
  In item groups ->
  Keys item = None \/ Metrics item = None
  \/ Metrics item = Some {| AmortizedCost := None |} ->
  forall acc, exists e, for_of groups push_service acc = Throw e.
Proof.
  intros Hin Hbad acc.
  destruct (for_of groups push_service acc) as [rows | e] eqn:E;
    [| now exists e].
  exfalso. apply for_of_push_service_normal in E as (gs & -> & _).
  apply in_map_iff in Hin as (g & <- & _).
  destruct Hbad as [H | [H | H]]; discriminate H.
Qed.

(** X5. A SERVICE page gives its rows all or nothing: the callback shapes
    the rows exactly when every group carries its keys and the
    [AmortizedCost] metric, one row per group in order; one group without
    keys or without the metric makes the call return [undefined], the rows
    shaped from the groups before it included. *)
Theorem service_page_all_or_nothing r0 :
  (forall rows,
     serviceBillingsOfPage r0 = Normal rows
     <-> exists gs, Groups r0 = Some (map group_of gs) /\ rows = map service_row gs)
  /\
  (forall client dateRange tok data groups item fuel,
     client (serviceInput dateRange tok) = Resolved data ->
     ResultsByTime data = Some [r0] ->
     Groups r0 = Some groups ->
     In item groups ->
     Keys item = None \/ Metrics item = None
     \/ Metrics item = Some {| AmortizedCost := None |} ->
     getServiceBilling (S fuel) client dateRange tok = Ret None).
Proof.
  split.
  - intros rows. unfold serviceBillingsOfPage. split.
    + destruct (Groups r0) as [groups |]; cbn [deref bind]; [| discriminate].
      intros H. apply for_of_push_service_normal in H as (gs & -> & ->).
      exists gs. split; reflexivity.
    + intros (gs & -> & ->). cbn [deref bind].
      apply (for_of_push_service gs []).
  - intros client dateRange tok data groups item fuel Hc Hr Hg Hin Hbad.
    cbn [getServiceBilling]. rewrite Hc, Hr.
    unfold serviceBillingsOfPage. rewrite Hg. cbn [deref bind].
    destruct (for_of_push_service_throws groups item Hin Hbad []) as [e ->].
    reflexivity.
Qed.

(** A page whose second group has no metrics: [undefined]. *)
Lemma service_page_all_or_nothing_witness :
  getServiceBilling 1 (fun _ => Resolved group_without_metrics_response)
    sample_range None
  = Ret None.
Proof.
  refine (proj2 (service_page_all_or_nothing _)
            (fun _ => Resolved group_without_metrics_response) sample_range None
            group_without_metrics_response _
            {| Keys := Some ["AWS Config"]; Metrics := None |} 0
            eq_refl eq_refl eq_refl _ _).
  - right. left. reflexivity.
  - right. left. reflexivity.
Defined.

Lemma for_of_no_attributes groups :
  forall acc : list AccountBilling,
  for_of groups (fun billings item => for_of [] (push_account item) billings) acc
  = Normal acc.
Proof.
  induction groups as [| item groups IH]; intros acc; cbn [for_of bind];
    [reflexivity | apply IH].
Qed.

(** X6. A LINKED_ACCOUNT page whose response carries no attribute list, or
    an empty one, gives no row, whatever its groups: the page is an empty
    list, and with no further token the fetch returns the empty list, not
    [undefined]. *)
Theorem account_page_without_attributes client dateRange tok data r0 groups fuel :
  client (accountInput dateRange tok) = Resolved data ->
  ResultsByTime data = Some [r0] ->
  Groups r0 = Some groups ->
  DimensionValueAttributes data = None \/ DimensionValueAttributes data = Some [] ->
  accountBillingsOfPage data r0 = Normal []
  /\
  (truthy (NextPageToken data) = false ->
   getAccountBillings (S fuel) client dateRange tok = Ret (Some [])).
Proof.
  intros Hc Hr Hg Ha.
  assert (Hp : accountBillingsOfPage data r0 = Normal []).
  { unfold accountBillingsOfPage. rewrite Hg. cbn [deref bind].
    destruct Ha as [-> | ->]; apply for_of_no_attributes. }
  split; [exact Hp |].
  intros Ht. cbn [getAccountBillings]. rewrite Hc, Hr, Hp, Ht. reflexivity.
Qed.

(** A page with a group and no attribute list: the empty list. *)
Lemma account_page_without_attributes_witness :
  getAccountBillings 1 (fun _ => Resolved (response_of service_page_2))
    sample_range None
  = Ret (Some []).
Proof.
  refine (proj2 (account_page_without_attributes
                   (fun _ => Resolved (response_of service_page_2)) sample_range None
                   (response_of service_page_2) (bucket_of service_page_2)
                   _ 0 eq_refl eq_refl eq_refl _) _).
  - left. reflexivity.
  - reflexivity.
Defined.

(** ** Token cycles and the requests read *)

Section MoreFuel.

Variable client : CostExplorerClient.
Variable dateRange : DateRange.

(** Within a chain of pages the fetch has not returned. *)
Lemma getServiceBilling_within_chain tok' :
  forall pages tok fuel,
  chain client (serviceInput dateRange) tok pages tok' ->
  fuel < List.length pages ->
  getServiceBilling fuel client dateRange tok = OutOfFuel.
Proof.
  induction pages as [| p ps IH]; intros tok fuel Hc Hlt; cbn [List.length] in Hlt.
  - lia.
  - destruct fuel as [| fuel]; [reflexivity |].
    destruct Hc as (Hp & Ht & Hc).
    rewrite (getServiceBilling_page client dateRange fuel tok p Hp), Ht.
    rewrite (IH _ fuel Hc ltac:(lia)). reflexivity.
Qed.

Lemma getAccountBillings_within_chain tok' :
  forall pages tok fuel,
  chain client (accountInput dateRange) tok pages tok' ->
  fuel < List.length pages ->
  getAccountBillings fuel client dateRange tok = OutOfFuel.
Proof.
  induction pages as [| p ps IH]; intros tok fuel Hc Hlt; cbn [List.length] in Hlt.
  - lia.
  - destruct fuel as [| fuel]; [reflexivity |].
    destruct Hc as (Hp & Ht & Hc).
    rewrite (getAccountBillings_page client dateRange fuel tok p Hp), Ht.
    rewrite (IH _ fuel Hc ltac:(lia)). reflexivity.
Qed.

(** X8. The recursion over continuation tokens has no guard against a
    cycle: when following the tokens from [tok] through successful pages
    leads back to [tok], neither fetch returns, however many calls it is
    given. *)
Theorem grouped_fetch_loops_on_token_cycle pages tok :
  pages <> [] ->
  (chain client (serviceInput dateRange) tok pages tok ->
   forall fuel, getServiceBilling fuel client dateRange tok = OutOfFuel)
  /\
  (chain client (accountInput dateRange) tok pages tok ->
   forall fuel, getAccountBillings fuel client dateRange tok = OutOfFuel).
Proof.
  intros Hne.
  assert (Hlen : 0 < List.length pages) by (destruct pages; [congruence | cbn; lia]).
  split; intros Hc fuel.
  - induction fuel as [fuel IH] using lt_wf_ind.
    destruct (Nat.lt_ge_cases fuel (List.length pages)) as [Hlt | Hge].
    + apply (getServiceBilling_within_chain tok pages tok fuel Hc Hlt).
    + replace fuel with (List.length pages + (fuel - List.length pages)) by lia.
      rewrite (getServiceBilling_chain client dateRange tok _ pages tok Hc).
      rewrite (IH (fuel - List.length pages) ltac:(lia)).
      destruct pages; [congruence | reflexivity].
  - induction fuel as [fuel IH] using lt_wf_ind.
    destruct (Nat.lt_ge_cases fuel (List.length pages)) as [Hlt | Hge].
    + apply (getAccountBillings_within_chain tok pages tok fuel Hc Hlt).
    + replace fuel with (List.length pages + (fuel - List.length pages)) by lia.
      rewrite (getAccountBillings_chain client dateRange tok _ pages tok Hc).
      rewrite (IH (fuel - List.length pages) ltac:(lia)).
      destruct pages; [congruence | reflexivity].
Qed.

End MoreFuel.

(** A page whose token leads to itself: fifty calls do not return. *)
Lemma grouped_fetch_loops_on_token_cycle_witness :
  getServiceBilling 50 looping_client sample_range (Some sample_token) = OutOfFuel.
Proof.
  refine (proj1 (grouped_fetch_loops_on_token_cycle looping_client sample_range
                   [service_page_1] (Some sample_token) _) _ 50).
  - discriminate.
  - cbn. repeat split; reflexivity.
Defined.

(** The fetches read the client at the requests of their grouping only. *)
Lemma getServiceBilling_ext c1 c2 dateRange :
  (forall tok, c1 (serviceInput dateRange tok) = c2 (serviceInput dateRange tok)) ->
  forall fuel tok,
  getServiceBilling fuel c1 dateRange tok = getServiceBilling fuel c2 dateRange tok.
Proof.
  intros Hext. induction fuel as [| fuel IH]; intros tok; [reflexivity |].
  cbn [getServiceBilling]. rewrite Hext.
  destruct (c2 (serviceInput dateRange tok)) as [data | reason]; [| reflexivity].
  destruct (ResultsByTime data) as [[| r0 [| r1 rs]] |]; try reflexivity.
  destruct (serviceBillingsOfPage r0); [| reflexivity].
  destruct (truthy (NextPageToken data)); [| reflexivity].
  rewrite IH. reflexivity.
Qed.

Lemma getAccountBillings_ext c1 c2 dateRange :
  (forall tok, c1 (accountInput dateRange tok) = c2 (accountInput dateRange tok)) ->
  forall fuel tok,
  getAccountBillings fuel c1 dateRange tok = getAccountBillings fuel c2 dateRange tok.
Proof.
  intros Hext. induction fuel as [| fuel IH]; intros tok; [reflexivity |].
  cbn [getAccountBillings]. rewrite Hext.
  destruct (c2 (accountInput dateRange tok)) as [data | reason]; [| reflexivity].
  destruct (ResultsByTime data) as [[| r0 [| r1 rs]] |]; try reflexivity.
  destruct (accountBillingsOfPage data r0); [| reflexivity].
  destruct (truthy (NextPageToken data)); [| reflexivity].
  rewrite IH. reflexivity.
Qed.

(** X13. A run reads the billing client at the total request and at the
    requests of its own grouping over the computed period only: a
    'services' run is the same with any client that answers these requests
    alike, whatever it answers to LINKED_ACCOUNT requests, and the other
    way round for an 'accounts' run. *)
Theorem handler_reads_its_grouping_only fuel w client event :
  let dateRange := getDateRange (Date_now w) in
  ceClient w (totalInput dateRange) = client (totalInput dateRange) ->
  (type event = Some "services" ->
   (forall tok, ceClient w (serviceInput dateRange tok)
                = client (serviceInput dateRange tok)) ->
   handler fuel (with_client w client) event = handler fuel w event)
  /\
  (type event = Some "accounts" ->
   (forall tok, ceClient w (accountInput dateRange tok)
                = client (accountInput dateRange tok)) ->
   handler fuel (with_client w client) event = handler fuel w event).
Proof.
  intros dateRange Htotal.
  assert (Hgt : getTotalBilling client dateRange
                = getTotalBilling (ceClient w) dateRange)
    by (unfold getTotalBilling; now rewrite Htotal).
  split; intros Ht Hext.
  - unfold handler, steps. cbn [with_client SLACK_SECRET_NAME getSecretValue
                                 Date_now ceClient].
    fold dateRange. rewrite Hgt.
    assert (Hf : fetchDetailBillings fuel (with_client w client) event dateRange
                 = fetchDetailBillings fuel w event dateRange).
    { unfold fetchDetailBillings. rewrite Ht. cbn [strict_eq EventInputType_ACCOUNTS
        EventInputType_SERVICES String.eqb Ascii.eqb Bool.eqb andb with_client ceClient].
      rewrite (getServiceBilling_ext (ceClient w) client dateRange Hext).
      reflexivity. }
    rewrite Hf. reflexivity.
  - unfold handler, steps. cbn [with_client SLACK_SECRET_NAME getSecretValue
                                 Date_now ceClient].
    fold dateRange. rewrite Hgt.
    assert (Hf : fetchDetailBillings fuel (with_client w client) event dateRange
                 = fetchDetailBillings fuel w event dateRange).
    { unfold fetchDetailBillings. rewrite Ht. cbn [strict_eq EventInputType_ACCOUNTS
        EventInputType_SERVICES String.eqb Ascii.eqb Bool.eqb andb with_client ceClient].
      rewrite (getAccountBillings_ext (ceClient w) client dateRange Hext).
      reflexivity. }
    rewrite Hf. reflexivity.
Qed.

(** A client that rejects the LINKED_ACCOUNT requests changes nothing for a 'services' run. *)
Lemma handler_reads_its_grouping_only_witness :
  handler 2 (with_client (sample_world sample_client true) services_only_client)
    services_event
  = handler 2 (sample_world sample_client true) services_event.
Proof.
  refine (proj1 (handler_reads_its_grouping_only 2 (sample_world sample_client true)
                   services_only_client services_event eq_refl) eq_refl _).
  intros tok. reflexivity.
Defined.

(** ** Outcomes of the handler *)

Lemma concat_repeat_singleton {A : Type} (x : A) n :
  List.concat (repeat [x] n) = repeat x n.
Proof.
  induction n as [| n IH]; [reflexivity |].
  cbn [repeat List.concat]. rewrite IH. reflexivity.
Qed.

(** X10. Rejections are not caught by the handler, and the durable context
    runs a step that throws again. When the secret store rejects the fetch
    of the secret, the handler throws the step error of that reason with
    nothing posted. When the chat rejects the root message, every run of
    the notify step hands the root message to the chat and nothing else:
    the handler throws after [stepRetries + 1] root messages. When the chat
    rejects the threaded message, every run hands over the root message
    and the threaded one, in this order, before the handler throws. *)
Theorem rejections_fail_the_run fuel w event :
  (forall reason,
     truthy (SLACK_SECRET_NAME w) = true ->
     valid_type (type event) ->
     getSecretValue w (as_string (SLACK_SECRET_NAME w)) = Rejected reason ->
     handler fuel w event = Ret ([], Throw (stepError w reason)))
  /\
  (forall tok chan fields reason,
     passes_validation w event tok chan ->
     let dateRange := getDateRange (Date_now w) in
     let root := rootMessage chan dateRange (getTotalBilling (ceClient w) dateRange) in
     fetchDetailBillings fuel w event dateRange = Ret fields ->
     (slack w tok root = Rejected reason ->
      handler fuel w event
      = Ret (repeat root (S (stepRetries w)), Throw (stepError w reason)))
     /\
     (forall result,
        slack w tok root = Resolved result -> ok result = true ->
        slack w tok (detailMessage chan (ts result) fields) = Rejected reason ->
        handler fuel w event
        = Ret (List.concat
                 (repeat [root; detailMessage chan (ts result) fields]
                    (S (stepRetries w))),
               Throw (stepError w reason)))).
Proof.
  split.
  - intros reason Hname Hvalid Hsecret. unfold handler. rewrite Hname.
    rewrite (valid_type_truthy _ Hvalid).
    rewrite (proj2 (includes_valid_type _) Hvalid). cbn [negb].
    unfold steps. rewrite Hsecret. reflexivity.
  - intros tok chan fields reason Hv dateRange root Hf.
    rewrite (handler_validated _ _ _ _ _ Hv). cbv zeta.
    fold dateRange. rewrite Hf. fold root. unfold postSlackMessages. fold root.
    split.
    + intros ->. cbn [context_step]. rewrite concat_repeat_singleton. reflexivity.
    + intros result -> -> ->. reflexivity.
Qed.

Lemma rejecting_slack_world_passes_validation root_rejected :
  passes_validation (rejecting_slack_world root_rejected) services_event
    "xxxx-xxxxxxxxx-xxxx" "example-channel".
Proof. repeat split; discriminate. Qed.

(** A root post rejected on each of the six runs of the step, and a
    threaded post rejected on each of them. *)
Lemma rejections_fail_the_run_witness :
  handler 1 (rejecting_slack_world true) services_event
  = Ret (repeat (rootMessage "example-channel" sample_range None) 6,
         Throw "channel_not_found")
  /\
  handler 1 (rejecting_slack_world false) services_event
  = Ret (List.concat
           (repeat [rootMessage "example-channel" sample_range None;
                    detailMessage "example-channel" (Some "1") None] 6),
         Throw "ratelimited").
Proof.
  split.
  - refine (proj1 (proj2 (rejections_fail_the_run 1 (rejecting_slack_world true)
                            services_event)
                     "xxxx-xxxxxxxxx-xxxx" "example-channel" None "channel_not_found"
                     (rejecting_slack_world_passes_validation true) eq_refl)
              eq_refl).
  - refine (proj2 (proj2 (rejections_fail_the_run 1 (rejecting_slack_world false)
                            services_event)
                     "xxxx-xxxxxxxxx-xxxx" "example-channel" None "ratelimited"
                     (rejecting_slack_world_passes_validation false) eq_refl)
              {| ok := true; ts := Some "1" |} eq_refl eq_refl eq_refl).
Defined.

(** X15. When the total is absent the handler still posts the root message,
    and the text of its attachment is 'undefined undefined'. *)
Theorem absent_total_is_posted_as_undefined fuel w event tok chan fields :
  passes_validation w event tok chan ->
  let dateRange := getDateRange (Date_now w) in
  getTotalBilling (ceClient w) dateRange = None ->
  fetchDetailBillings fuel w event dateRange = Ret fields ->
  exists rest completion,
    handler fuel w event
    = Ret ({| channel := chan;
              icon_emoji := Some ":money-with-wings:";
              text := Some ("AWS Cost Reports (" ++ start dateRange ++ " - "
                              ++ end_ dateRange ++ ")");
              thread_ts := None;
              attachments := [{| at_title := Some ":moneybag: Total";
                                 at_text := Some "undefined undefined";
                                 color := "#ff8c00";
                                 at_fields := None |}] |} :: rest,
           completion).
Proof.
  intros Hv dateRange Htotal Hf.
  destruct (handler_posts_root fuel w event tok chan fields Hv Hf)
    as (rest & completion & Hh).
  exists rest, completion. rewrite Hh. fold dateRange. rewrite Htotal. reflexivity.
Qed.

(** The test in which every billing request is rejected. *)
Lemma absent_total_is_posted_as_undefined_witness :
  exists rest completion,
    handler 1 (sample_world rejecting_client true) services_event
    = Ret ({| channel := "example-channel";
              icon_emoji := Some ":money-with-wings:";
              text := Some "AWS Cost Reports (2023-02-01 - 2023-02-22)";
              thread_ts := None;
              attachments := [{| at_title := Some ":moneybag: Total";
                                 at_text := Some "undefined undefined";
                                 color := "#ff8c00";
                                 at_fields := None |}] |} :: rest,
           completion).
Proof.
  exact (absent_total_is_posted_as_undefined 1 (sample_world rejecting_client true)
           services_event "xxxx-xxxxxxxxx-xxxx" "example-channel" None
           (sample_world_passes_validation rejecting_client true) eq_refl eq_refl).
Defined.



(** ** Reports from end to end *)

Lemma getServiceBilling_pages client dateRange front last tok' fuel :
  truthy (pg_next last) = false ->
  chain client (serviceInput dateRange) None front tok' ->
  client (serviceInput dateRange tok') = Resolved (response_of last) ->
  getServiceBilling (List.length (front ++ [last])%list + fuel) client dateRange None
  = Ret (Some (List.concat (map service_rows (front ++ [last])%list))).
Proof.
  intros Hend Hc Hlast.
  rewrite length_app, !map_app, !concat_app. cbn [List.length map List.concat].
  replace (List.length front + 1 + fuel) with (List.length front + S fuel) by lia.
  rewrite !app_nil_r.
  rewrite (getServiceBilling_chain _ _ _ _ _ _ Hc).
  rewrite (getServiceBilling_page _ _ _ _ last Hlast), Hend.
  destruct front; reflexivity.
Qed.

Lemma getAccountBillings_pages client dateRange front last tok' fuel :
  truthy (pg_next last) = false ->
  chain client (accountInput dateRange) None front tok' ->
  client (accountInput dateRange tok') = Resolved (response_of last) ->
  getAccountBillings (List.length (front ++ [last])%list + fuel) client dateRange None
  = Ret (Some (List.concat (map account_rows (front ++ [last])%list))).
Proof.
  intros Hend Hc Hlast.
  rewrite length_app, !map_app, !concat_app. cbn [List.length map List.concat].
  replace (List.length front + 1 + fuel) with (List.length front + S fuel) by lia.
  rewrite !app_nil_r.
  rewrite (getAccountBillings_chain _ _ _ _ _ _ Hc).
  rewrite (getAccountBillings_page _ _ _ _ last Hlast), Hend.
  destruct front; reflexivity.
Qed.

Lemma service_fields_of_pages (pages : list Page) :
  map (fun filed =>
         {| af_title := ":aws: " ++ tpl (mf_title filed);
            af_value := mf_value filed;
            short := false |})
    (map (fun value =>
            {| mf_title := service value;
               mf_value := tpl (sb_amount value) ++ " " ++ tpl (sb_unit value) |})
       (List.concat (map service_rows pages)))
  = map service_field (List.concat (map pg_groups pages)).
Proof.
  induction pages as [| p ps IH]; [reflexivity |].
  cbn [map List.concat]. rewrite !map_app, IH. f_equal.
  unfold service_rows. rewrite !map_map. reflexivity.
Qed.

Lemma account_fields_of_rows (rows : list AccountBilling) :
  map (fun filed =>
         {| af_title := ":aws: " ++ tpl (mf_title filed);
            af_value := mf_value filed;
            short := false |})
    (map (fun value =>
            {| mf_title := Some (account value);
               mf_value := tpl (ab_amount value) ++ " " ++ tpl (ab_unit value) |})
       rows)
  = map account_field rows.
Proof. rewrite map_map. reflexivity. Qed.

(** X11. A 'services' run from end to end: with the SERVICE pages linked by
    tokens and the two posts accepted, the handler posts the root message
    and, threaded under the [ts] of its response, one field per group of
    all the pages, in order, titled ':aws: <service>' with the value
    '<amount> <unit>', and returns 'OK'. *)
Theorem services_report_end_to_end fuel w event tok chan front last tok' result :
  passes_validation w event tok chan ->
  type event = Some "services" ->
  let dateRange := getDateRange (Date_now w) in
  let root := rootMessage chan dateRange (getTotalBilling (ceClient w) dateRange) in
  let detail :=
    {| channel := chan;
       icon_emoji := None;
       text := None;
       thread_ts := ts result;
       attachments :=
         [{| at_title := None;
             at_text := None;
             color := "#ffd700";
             at_fields :=
               Some (map service_field
                       (List.concat (map pg_groups (front ++ [last])%list))) |}] |} in
  truthy (pg_next last) = false ->
  chain (ceClient w) (serviceInput dateRange) None front tok' ->
  ceClient w (serviceInput dateRange tok') = Resolved (response_of last) ->
  slack w tok root = Resolved result ->
  ok result = true ->
  (exists response, slack w tok detail = Resolved response) ->
  handler (List.length (front ++ [last])%list + fuel) w event
  = Ret ([root; detail], Normal "OK").
Proof.
  intros Hv Ht dateRange root detail Hend Hc Hlast Hroot Hok [response Hdetail].
  rewrite (handler_validated _ _ _ _ _ Hv). cbv zeta. fold dateRange.
  unfold fetchDetailBillings. rewrite Ht.
  cbn [strict_eq EventInputType_ACCOUNTS EventInputType_SERVICES
       String.eqb Ascii.eqb Bool.eqb andb].
  rewrite (getServiceBilling_pages _ _ _ _ _ fuel Hend Hc Hlast).
  cbn [option_map].
  assert (Hd : detailMessage chan (ts result)
                 (Some (map (fun value =>
                               {| mf_title := service value;
                                  mf_value := tpl (sb_amount value) ++ " "
                                              ++ tpl (sb_unit value) |})
                          (List.concat (map service_rows (front ++ [last])%list))))
               = detail).
  { unfold detailMessage, detail. cbn [option_map].
    rewrite service_fields_of_pages. reflexivity. }
  rewrite (postSlackMessages_root _ _ _ _ _ _ _ Hroot), Hok, Hd, Hdetail.
  reflexivity.
Qed.

(** The SERVICE test: three fields, in the order of the pages. *)
Lemma services_report_end_to_end_witness :
  handler 2 (sample_world sample_client true) services_event
  = Ret ([rootMessage "example-channel" sample_range
            (Some {| tb_unit := Some "USD"; tb_amount := Some "1.23456" |});
          {| channel := "example-channel";
             icon_emoji := None;
             text := None;
             thread_ts := Some "1677117722.000100";
             attachments :=
               [{| at_title := None;
                   at_text := None;
                   color := "#ffd700";
                   at_fields :=
                     Some [{| af_title := ":aws: AWS CloudTrail";
                              af_value := "0 USD"; short := false |};
                           {| af_title := ":aws: AWS Config";
                              af_value := "0.012 USD"; short := false |};
                           {| af_title := ":aws: Tax";
                              af_value := "1.39 USD"; short := false |}] |}] |}],
         Normal "OK").
Proof.
  refine (services_report_end_to_end 0 (sample_world sample_client true)
            services_event "xxxx-xxxxxxxxx-xxxx" "example-channel"
            [service_page_1] service_page_2 (Some sample_token)
            {| ok := true; ts := Some "1677117722.000100" |}
            (sample_world_passes_validation sample_client true)
            eq_refl eq_refl _ eq_refl eq_refl eq_refl _).
  - cbn. repeat split; reflexivity.
  - eexists. reflexivity.
Defined.

(** X12. An 'accounts' run from end to end: with the LINKED_ACCOUNT pages
    linked by tokens and the two posts accepted, the handler posts the root
    message and, threaded under it, one field per row of the join of all
    the pages, in order, titled ':aws: <id> (<description>)' with the value
    '<amount> <unit>', and returns 'OK'. *)
Theorem accounts_report_end_to_end fuel w event tok chan front last tok' result :
  passes_validation w event tok chan ->
  type event = Some "accounts" ->
  let dateRange := getDateRange (Date_now w) in
  let root := rootMessage chan dateRange (getTotalBilling (ceClient w) dateRange) in
  let detail :=
    {| channel := chan;
       icon_emoji := None;
       text := None;
       thread_ts := ts result;
       attachments :=
         [{| at_title := None;
             at_text := None;
             color := "#ffd700";
             at_fields :=
               Some (map account_field
                       (List.concat (map account_rows (front ++ [last])%list))) |}] |} in
  truthy (pg_next last) = false ->
  chain (ceClient w) (accountInput dateRange) None front tok' ->
  ceClient w (accountInput dateRange tok') = Resolved (response_of last) ->
  slack w tok root = Resolved result ->
  ok result = true ->
  (exists response, slack w tok detail = Resolved response) ->
  handler (List.length (front ++ [last])%list + fuel) w event
  = Ret ([root; detail], Normal "OK").
Proof.
  intros Hv Ht dateRange root detail Hend Hc Hlast Hroot Hok [response Hdetail].
  rewrite (handler_validated _ _ _ _ _ Hv). cbv zeta. fold dateRange.
  unfold fetchDetailBillings. rewrite Ht.
  cbn [strict_eq EventInputType_ACCOUNTS EventInputType_SERVICES
       String.eqb Ascii.eqb Bool.eqb andb].
  rewrite (getAccountBillings_pages _ _ _ _ _ fuel Hend Hc Hlast).
  cbn [option_map].
  assert (Hd : detailMessage chan (ts result)
                 (Some (map (fun value =>
                               {| mf_title := Some (account value);
                                  mf_value := tpl (ab_amount value) ++ " "
                                              ++ tpl (ab_unit value) |})
                          (List.concat (map account_rows (front ++ [last])%list))))
               = detail).
  { unfold detailMessage, detail. cbn [option_map].
    rewrite account_fields_of_rows. reflexivity. }
  rewrite (postSlackMessages_root _ _ _ _ _ _ _ Hroot), Hok, Hd, Hdetail.
  reflexivity.
Qed.

(** The LINKED_ACCOUNT test: four fields, in the order of the pages. *)
Lemma accounts_report_end_to_end_witness :
  exists root fields,
    handler 2 (sample_world sample_client true) {| type := Some "accounts" |}
    = Ret ([root;
            {| channel := "example-channel";
               icon_emoji := None;
               text := None;
               thread_ts := Some "1677117722.000100";
               attachments := [{| at_title := None; at_text := None;
                                  color := "#ffd700";
                                  at_fields := Some fields |}] |}],
           Normal "OK")
    /\ map af_title fields
       = [":aws: 111111111111 (Example System 1A)";
          ":aws: 222222222222 (Example System 2A)";
          ":aws: 333333333333 (Example System 3A)";
          ":aws: 444444444444 (Example System 4A)"]
    /\ map af_value fields
       = ["1.23456 USD"; "6.8423283327 USD"; "7.1233988094 USD"; "0.4724468979 USD"].
Proof.
  eexists. eexists. split.
  - refine (accounts_report_end_to_end 0 (sample_world sample_client true)
              {| type := Some "accounts" |} "xxxx-xxxxxxxxx-xxxx" "example-channel"
              [account_page_1] account_page_2 (Some sample_token)
              {| ok := true; ts := Some "1677117722.000100" |}
              _ eq_refl eq_refl _ eq_refl eq_refl eq_refl _).
    + repeat split; discriminate.
    + cbn. repeat split; reflexivity.
    + eexists. reflexivity.
  - split; reflexivity.
Defined.
